(** * Stock analyzer: refresh / indicator engine

    A shallow embedding of the parts of [app.py], [stock_analyzer.py] and
    [simple_stock_analyzer.py] that compute the indicators, classify the
    MACD crossover and merge fetch results into the shared store.

    Numbers.  Python floats are modelled as exact rationals extended with
    the IEEE special values: a finite value is a canonical rational [Qc],
    and [x / 0], [inf - inf] and the like give [Inf] and [NaN] as numpy
    does.  Binary rounding is not modelled, and zero carries no sign. *)

From stdpp Require Import gmap strings.
From Stdlib Require Import QArith Qcanon Qround Field Lqa.

Local Open Scope Z_scope.

(** ** Python floats *)

Inductive pyfloat : Type :=
  | Fin (q : Qc)
  | Inf (negative : bool)
  | NaN.

Definition Qc_is_zero (q : Qc) : bool :=
  match (q ?= 0)%Qc with Eq => true | _ => false end.

Definition Qc_is_neg (q : Qc) : bool :=
  match (q ?= 0)%Qc with Lt => true | _ => false end.

(** A decimal literal: [dec 13 10] is [1.3]. *)
Definition dec (n : Z) (d : positive) : pyfloat := Fin (Q2Qc (n # d)).

Definition fzero : pyfloat := Fin 0%Qc.
Definition fone : pyfloat := Fin 1%Qc.
Definition of_Z (n : Z) : pyfloat := Fin (Q2Qc (inject_Z n)).

Definition fneg (x : pyfloat) : pyfloat :=
  match x with
  | Fin a => Fin (- a)%Qc
  | Inf s => Inf (negb s)
  | NaN => NaN
  end.

Definition fadd (x y : pyfloat) : pyfloat :=
  match x, y with
  | NaN, _ | _, NaN => NaN
  | Fin a, Fin b => Fin (a + b)%Qc
  | Fin _, Inf s => Inf s
  | Inf s, Fin _ => Inf s
  | Inf s, Inf t => if Bool.eqb s t then Inf s else NaN
  end.

Definition fsub (x y : pyfloat) : pyfloat := fadd x (fneg y).

Definition fmul (x y : pyfloat) : pyfloat :=
  match x, y with
  | NaN, _ | _, NaN => NaN
  | Fin a, Fin b => Fin (a * b)%Qc
  | Fin a, Inf s => if Qc_is_zero a then NaN else Inf (xorb (Qc_is_neg a) s)
  | Inf s, Fin b => if Qc_is_zero b then NaN else Inf (xorb s (Qc_is_neg b))
  | Inf s, Inf t => Inf (xorb s t)
  end.

Definition fdiv (x y : pyfloat) : pyfloat :=
  match x, y with
  | NaN, _ | _, NaN => NaN
  | Fin a, Fin b =>
      if Qc_is_zero b
      then (if Qc_is_zero a then NaN else Inf (Qc_is_neg a))
      else Fin (a / b)%Qc
  | Fin _, Inf _ => Fin 0%Qc
  | Inf s, Fin b => Inf (xorb s (Qc_is_neg b))
  | Inf _, Inf _ => NaN
  end.

(** Comparisons; every comparison with [NaN] is false. *)
Definition fcompare (x y : pyfloat) : option comparison :=
  match x, y with
  | NaN, _ | _, NaN => None
  | Fin a, Fin b => Some (a ?= b)%Qc
  | Fin _, Inf s => Some (if s then Gt else Lt)
  | Inf s, Fin _ => Some (if s then Lt else Gt)
  | Inf s, Inf t =>
      Some (match s, t with
            | true, false => Lt
            | false, true => Gt
            | _, _ => Eq
            end)
  end.

Definition flt (x y : pyfloat) : bool :=
  match fcompare x y with Some Lt => true | _ => false end.
Definition fgt (x y : pyfloat) : bool := flt y x.
Definition fle (x y : pyfloat) : bool :=
  match fcompare x y with Some Lt | Some Eq => true | _ => false end.
Definition fge (x y : pyfloat) : bool := fle y x.
Definition feq (x y : pyfloat) : bool :=
  match fcompare x y with Some Eq => true | _ => false end.
Definition fne (x y : pyfloat) : bool := negb (feq x y).

Definition is_nan (x : pyfloat) : bool :=
  match x with NaN => true | _ => false end.

Definition is_finite (x : pyfloat) : bool :=
  match x with Fin _ => true | _ => false end.

Definition pow10 (ndigits : nat) : Q := inject_Z (10 ^ Z.of_nat ndigits).

Definition round_half_even (q : Q) : Z :=
  let f := Qfloor q in
  match (q - inject_Z f ?= 1 # 2)%Q with
  | Lt => f
  | Gt => f + 1
  | Eq => if Z.even f then f else f + 1
  end.

(** Python's [round(x, ndigits)] on a Python float: the multiple of
    10^-ndigits nearest to the value of [x], a tie going to the even one;
    NaN and the infinities are returned as they are.  The result is kept
    as the decimal it denotes. *)
Definition py_round (x : pyfloat) (ndigits : nat) : pyfloat :=
  match x with
  | Fin q =>
      Fin (Q2Qc (inject_Z (round_half_even (q * pow10 ndigits))
                 / pow10 ndigits))
  | _ => x
  end.

Declare Scope pyfloat_scope.
Delimit Scope pyfloat_scope with F.
Bind Scope pyfloat_scope with pyfloat.
Infix "+" := fadd : pyfloat_scope.
Infix "-" := fsub : pyfloat_scope.
Infix "*" := fmul : pyfloat_scope.
Infix "/" := fdiv : pyfloat_scope.
Notation "- x" := (fneg x) : pyfloat_scope.
Infix "<?" := flt : pyfloat_scope.
Infix "<=?" := fle : pyfloat_scope.
Infix ">?" := fgt : pyfloat_scope.
Infix ">=?" := fge : pyfloat_scope.

(** ** [class StockData] (app.py) *)

(** Instants are whole seconds: the result dictionary carries
    [strftime('%Y-%m-%d %H:%M:%S')] of an instant and the merge parses it
    back with [strptime] under the same format. *)
Definition datetime : Type := Z.

(** What ['%H:%M:%S'] keeps of an instant: the seconds since midnight. *)
Definition time_of_day (t : datetime) : datetime := t mod 86400.

Record StockData : Type := mkStockData {
  symbol : string;
  price : pyfloat;
  rsi : pyfloat;
  macd : pyfloat;
  macd_signal : pyfloat;
  macd_hist : pyfloat;
  volume : Z;
  timestamp : datetime;
  prev_macd : pyfloat;
  prev_signal : pyfloat;
  error : option string
}.

(** [StockData.__init__]; [now] is the value of [datetime.now()]. *)
Definition StockData_init (sym : string) (now : datetime) : StockData :=
  {| symbol := sym; price := fzero; rsi := fzero; macd := fzero;
     macd_signal := fzero; macd_hist := fzero; volume := 0;
     timestamp := now; prev_macd := fzero; prev_signal := fzero;
     error := None |}.

Inductive Crossover : Type :=
  | Bullish | Bearish | Above | Below | NoCrossover.

(** The strings the property returns. *)
Definition crossover_label (c : Crossover) : string :=
  match c with
  | Bullish => "↑ Bullish"
  | Bearish => "↓ Bearish"
  | Above => "↑ Above"
  | Below => "↓ Below"
  | NoCrossover => "-"
  end.

(** The cascade of [macd_crossover] on the four attributes it reads. *)
Definition classify (pm ps m s : pyfloat) : Crossover :=
  if (pm <=? ps)%F && (m >? s)%F then Bullish
  else if (pm >=? ps)%F && (m <? s)%F then Bearish
  else if (m >? s)%F then Above
  else if (m <? s)%F then Below
  else NoCrossover.

(** [StockData.macd_crossover].  The [hasattr] test never fires on an
    object built by [__init__], which always sets both attributes. *)
Definition macd_crossover (st : StockData) : Crossover :=
  classify (prev_macd st) (prev_signal st) (macd st) (macd_signal st).

(** [StockData.update_macd_history]. *)
Definition update_macd_history (st : StockData) : StockData :=
  {| symbol := symbol st; price := price st; rsi := rsi st;
     macd := macd st; macd_signal := macd_signal st;
     macd_hist := macd_hist st; volume := volume st;
     timestamp := timestamp st;
     prev_macd := macd st; prev_signal := macd_signal st;
     error := error st |}.


(** ** Result dictionaries *)

(** The dictionary [fetch_stock_data] returns on success, and
    [StockFetcher.run] emits with [data_ready]. *)
Record StockDict : Type := mkStockDict {
  d_symbol : string;
  d_price : pyfloat;
  d_rsi : pyfloat;
  d_macd : pyfloat;
  d_macd_signal : pyfloat;
  d_macd_hist : pyfloat;
  d_volume : Z;
  d_timestamp : datetime
}.

(** A result either has the key ['error'] or carries the metrics. *)
Inductive FetchResult : Type :=
  | ErrorDict (sym : string) (err : string)
  | DataDict (d : StockDict).

(** ** The shared store and the merge of one result (app.py)

    [stock_data_store] is a dictionary from symbol to [StockData].  The
    body of the [for symbol in stocks] loop is the same in
    [background_update] and in [refresh_stocks]. *)

Definition set_error (st : StockData) (e : option string) : StockData :=
  {| symbol := symbol st; price := price st; rsi := rsi st;
     macd := macd st; macd_signal := macd_signal st;
     macd_hist := macd_hist st; volume := volume st;
     timestamp := timestamp st;
     prev_macd := prev_macd st; prev_signal := prev_signal st;
     error := e |}.

(** Lines 222-229 of app.py: the assignments after
    [stock.update_macd_history()]. *)
Definition overwrite (st : StockData) (d : StockDict) : StockData :=
  {| symbol := symbol st; price := d_price d; rsi := d_rsi d;
     macd := d_macd d; macd_signal := d_macd_signal d;
     macd_hist := d_macd_hist d; volume := d_volume d;
     timestamp := d_timestamp d;
     prev_macd := prev_macd st; prev_signal := prev_signal st;
     error := None |}.

(** One iteration of the loop, for [sym] and the dictionary [data] that
    [fetch_stock_data sym] returned; [now] is the clock read by
    [StockData(symbol)] when the entry is created.  No statement of the
    [try] block raises on these dictionaries, so the [except] clause is
    not taken. *)
Definition merge (now : datetime) (sym : string) (data : FetchResult)
    (store : gmap string StockData) : gmap string StockData :=
  match data with
  | ErrorDict _ err =>
      match store !! sym with
      | Some st => <[sym := set_error st (Some err)]> store
      | None => store
      end
  | DataDict d =>
      let stock :=
        match store !! sym with
        | Some st => st
        | None => StockData_init sym now
        end in
      <[sym := overwrite (update_macd_history stock) d]> store
  end.

(** The effect of one result on an entry that exists. *)
Definition apply_result (st : StockData) (data : FetchResult) : StockData :=
  match data with
  | ErrorDict _ err => set_error st (Some err)
  | DataDict d => overwrite (update_macd_history st) d
  end.

(** A merge as it reaches the store: which symbol, what the fetch
    returned, and the clock at that moment. *)
Record Arrival : Type := mkArrival {
  arr_symbol : string;
  arr_result : FetchResult;
  arr_now : datetime
}.

Definition merge_arrival (store : gmap string StockData) (a : Arrival)
    : gmap string StockData :=
  merge (arr_now a) (arr_symbol a) (arr_result a) store.

(** Any number of refresh passes, flattened to the order in which their
    results reach the store. *)
Definition merge_all (arrivals : list Arrival)
    (store : gmap string StockData) : gmap string StockData :=
  fold_left merge_arrival arrivals store.

(** The metrics of the most recent successful result for [sym]. *)
Fixpoint last_success (sym : string) (arrivals : list Arrival)
    (acc : option StockDict) : option StockDict :=
  match arrivals with
  | [] => acc
  | a :: rest =>
      last_success sym rest
        (match arr_result a with
         | DataDict d => if String.eqb (arr_symbol a) sym then Some d else acc
         | ErrorDict _ _ => acc
         end)
  end.

(** ** pandas Series operations used by [StockFetcher.run]

    A Series is the list of its values, oldest first; the index plays no
    role in the computations below. *)

Abbreviation Series := (list pyfloat).

(** [s.iloc[-1]]; [None] stands for the [IndexError] on an empty Series. *)
Definition iloc_last {A : Type} (s : list A) : option A := last s.

(** [s.diff()]: the first value has no predecessor. *)
Definition diff (s : Series) : Series :=
  match s with
  | [] => []
  | _ :: tl => NaN :: zip_with (fun cur prev => (cur - prev)%F) tl s
  end.

(** [s.where(cond, other)]: keep the value where [cond] holds. *)
Definition where_ (cond : pyfloat -> bool) (other : pyfloat) (s : Series)
    : Series :=
  fmap (fun x => if cond x then x else other) s.

Definition fsum (l : list pyfloat) : pyfloat := fold_left fadd l fzero.

(** [s.rolling(window=w).mean()]: the mean of the last [w] values, and
    [NaN] while fewer than [w] values are available ([min_periods]
    defaults to the window) or when one of them is [NaN]. *)
Definition rolling_mean (w : nat) (s : Series) : Series :=
  fmap (fun i =>
         if (i + 1 <? w)%nat then NaN
         else (fsum (take w (drop (i + 1 - w) s)) / of_Z (Z.of_nat w))%F)
      (seq 0 (length s)).

(** [s.ewm(span=n, adjust=False).mean()].  pandas: alpha = 2/(span+1),
    y0 = x0 and yt = (1-alpha) y(t-1) + alpha xt.  A missing value leaves
    the average where it is while the weight of the past keeps decaying
    ([ignore_na=False]), and the average starts at the first value that
    is present. *)
Definition alpha_of_span (span : Z) : pyfloat :=
  (of_Z 2 / (of_Z span + fone))%F.

Fixpoint ewm_loop (alpha weighted old_wt : pyfloat) (vals : Series)
    : Series :=
  match vals with
  | [] => []
  | cur :: rest =>
      let '(weighted', old_wt') :=
        if is_nan weighted then (cur, old_wt)
        else
          let old_wt1 := (old_wt * (fone - alpha))%F in
          if is_nan cur then (weighted, old_wt1)
          else (((old_wt1 * weighted + alpha * cur) / (old_wt1 + alpha))%F,
                fone) in
      weighted' :: ewm_loop alpha weighted' old_wt' rest
  end.

Definition ewm_mean (span : Z) (vals : Series) : Series :=
  match vals with
  | [] => []
  | x0 :: rest => x0 :: ewm_loop (alpha_of_span span) x0 fone rest
  end.

(** ** [StockFetcher.run] (stock_analyzer.py) *)

(** A call that may raise: [str(e)] of the exception, or the value. *)
Inductive outcome (A : Type) : Type :=
  | Raised (msg : string)
  | Returned (a : A).
Arguments Raised {A} msg.
Arguments Returned {A} a.

(** One row of a history frame whose [Volume] column is int64, as
    [stock.history] delivers it when no volume is missing; [Close] is a
    float64 column. *)
Record Row : Type := mkRow { Close : pyfloat; Volume : Z }.

(** A row as [hist.iloc[i]] presents it: a float64 Series.  Its volume
    is NaN where the source delivered none. *)
Record FloatRow : Type := mkFloatRow { fClose : pyfloat; fVolume : pyfloat }.

(** The double nearest to an integer (ties to even), as an integer:
    integers up to 2^53 in magnitude are kept, larger ones are rounded
    to 53 significant bits. *)
Definition float64_of_int (v : Z) : Z :=
  let a := Z.abs v in
  let e := Z.log2 a - 52 in
  if e <=? 0 then v
  else
    let q := a / 2 ^ e in
    let r := a mod 2 ^ e in
    let half := 2 ^ (e - 1) in
    let q' := if (half <? r) || ((r =? half) && Z.odd q) then q + 1 else q in
    Z.sgn v * (q' * 2 ^ e).

(** [hist.iloc[i]] on a frame with an int64 volume column: the row is
    upcast to float64. *)
Definition float_row (r : Row) : FloatRow :=
  {| fClose := Close r; fVolume := of_Z (float64_of_int (Volume r)) |}.

Definition float_rows (history : outcome (list Row))
    : outcome (list FloatRow) :=
  match history with
  | Raised msg => Raised msg
  | Returned hist => Returned (fmap float_row hist)
  end.

(** Python's [int(x)] on a float: truncation towards zero; it raises on
    NaN and on the infinities. *)
Definition py_int (x : pyfloat) : outcome Z :=
  match x with
  | Fin q => Returned (Z.quot (Qnum q) (QDen q))
  | Inf _ => Raised "cannot convert float infinity to integer"
  | NaN => Raised "cannot convert float NaN to integer"
  end.

(** What the worker emits. *)
Inductive Signal : Type :=
  | data_ready (d : StockDict)
  | error_occurred (sym : string) (msg : string).

(** Lines 144-148, up to the Series [100 / (1 + rs)] whose last value is
    subtracted from 100. *)
Definition rsi_quotient_series (close : Series) : Series :=
  let delta := diff close in
  let gain := rolling_mean 14 (where_ (fun d => (d >? fzero)%F) fzero delta) in
  let loss :=
    rolling_mean 14
      (fmap fneg (where_ (fun d => (d <? fzero)%F) fzero delta)) in
  let rs := zip_with fdiv gain loss in
  fmap (fun r => (of_Z 100 / (fone + r))%F) rs.

(** Lines 151-155. *)
Definition macd_series (close : Series) : Series :=
  let exp1 := ewm_mean 12 close in
  let exp2 := ewm_mean 26 close in
  zip_with fsub exp1 exp2.

Definition signal_series (close : Series) : Series :=
  ewm_mean 9 (macd_series close).

Definition macd_hist_series (close : Series) : Series :=
  zip_with fsub (macd_series close) (signal_series close).

Definition index_error : string :=
  "single positional indexer is out-of-bounds".

(** [StockFetcher.run]: [running0] and [running1] are the two reads of
    [self._is_running], [history] is what [stock.history(...)] gave, row
    by row, and [now] the clock when the dictionary is built.  [None]
    means that no signal is emitted. *)
Definition StockFetcher_run (sym : string) (running0 running1 : bool)
    (history : outcome (list FloatRow)) (now : datetime) : option Signal :=
  if negb running0 then None
  else
    let except (msg : string) :=
      if running1 then Some (error_occurred sym msg) else None in
    match history with
    | Raised msg => except msg
    | Returned hist =>
        match hist with
        | [] => Some (error_occurred sym "No data returned")
        | _ :: _ =>
            let close := fmap fClose hist in
            match iloc_last (rsi_quotient_series close),
                  iloc_last hist,
                  iloc_last (macd_series close),
                  iloc_last (signal_series close),
                  iloc_last (macd_hist_series close) with
            | Some r, Some last_row, Some m, Some s, Some h =>
                match py_int (fVolume last_row) with
                | Returned v =>
                    let data :=
                      {| d_symbol := sym;
                         d_price := fClose last_row;
                         d_rsi := (of_Z 100 - r)%F;
                         d_macd := m;
                         d_macd_signal := s;
                         d_macd_hist := h;
                         d_volume := v;
                         d_timestamp := now |} in
                    if running1 then Some (data_ready data) else None
                | Raised msg => except msg
                end
            | _, _, _, _, _ => except index_error
            end
        end
    end.

(** [StockFetcher.run] on a frame with an int64 volume column. *)
Definition run (sym : string) (running0 running1 : bool)
    (history : outcome (list Row)) (now : datetime) : option Signal :=
  StockFetcher_run sym running0 running1 (float_rows history) now.

(** ** [fetch_stock_data] (app.py)

    The indicators come from the [ta] package, which is not part of the
    repository: [ta_rsi w], [ta_macd f s g] and [ta_macd_signal f s g]
    stand for [RSIIndicator(close, window=w).rsi()] and for
    [MACD(close, window_fast=f, window_slow=s, window_sign=g)]'s [macd()]
    and [macd_signal()]. *)
Section FetchStockData.
Variable ta_rsi : Z -> Series -> Series.
Variable ta_macd ta_macd_signal : Z -> Z -> Z -> Series -> Series.

Definition fetch_stock_data (sym : string)
    (history : outcome (list FloatRow)) (now : datetime) : FetchResult :=
  match history with
  | Raised msg => ErrorDict sym msg
  | Returned hist =>
      match hist with
      | [] => ErrorDict sym "No data returned"
      | _ :: _ =>
          let close := fmap fClose hist in
          match iloc_last (ta_rsi 14 close),
                iloc_last (ta_macd 12 26 9 close),
                iloc_last (ta_macd_signal 12 26 9 close),
                iloc_last hist with
          | Some r, Some m, Some s, Some last_row =>
              match py_int (fVolume last_row) with
              | Returned v =>
                  DataDict
                    {| d_symbol := sym;
                       d_price := fClose last_row;
                       d_rsi := r;
                       d_macd := m;
                       d_macd_signal := s;
                       d_macd_hist := (m - s)%F;
                       d_volume := v;
                       d_timestamp := now |}
              | Raised msg => ErrorDict sym msg
              end
          | _, _, _, _ => ErrorDict sym index_error
          end
      end
  end.

(** One pass of [background_update]: what the fetch saw for each symbol
    of the list, merged in list order.  [f_now] is the clock read by
    [fetch_stock_data] and [f_created] the one read by
    [StockData(symbol)]. *)
Record Fetch : Type := mkFetch {
  f_symbol : string;
  f_history : outcome (list FloatRow);
  f_now : datetime;
  f_created : datetime
}.

Definition arrival_of (f : Fetch) : Arrival :=
  {| arr_symbol := f_symbol f;
     arr_result := fetch_stock_data (f_symbol f) (f_history f) (f_now f);
     arr_now := f_created f |}.

Definition background_update (fetches : list Fetch)
    (store : gmap string StockData) : gmap string StockData :=
  merge_all (fmap arrival_of fetches) store.

(** [StockDataFetcher.run] (simple_stock_analyzer.py), without the
    progress signals.  It uses the same indicators, rounds what it
    reports and derives the histogram from the rounded values.  The
    frame has an int64 volume column, read as it is, and the timestamp
    is printed as ['%H:%M:%S'], the time of day. *)
Definition StockDataFetcher_run (sym : string)
    (history : outcome (list Row)) (now : datetime) : Signal :=
  let except (msg : string) :=
    error_occurred sym
      (String.append "Error processing "
         (String.append sym (String.append ": " msg))) in
  match history with
  | Raised msg => except msg
  | Returned df =>
      match df with
      | [] => except (String.append "No data found for " sym)
      | _ :: _ =>
          let close_prices := fmap Close df in
          match iloc_last (ta_rsi 14 close_prices),
                iloc_last (ta_macd 12 26 9 close_prices),
                iloc_last (ta_macd_signal 12 26 9 close_prices),
                iloc_last close_prices,
                iloc_last (fmap Volume df) with
          | Some r, Some m, Some s, Some p, Some v =>
              let current_rsi := py_round r 2 in
              let current_macd := py_round m 4 in
              let current_signal := py_round s 4 in
              let current_hist :=
                py_round (current_macd - current_signal)%F 4 in
              data_ready
                {| d_symbol := sym;
                   d_price := py_round p 2;
                   d_rsi := current_rsi;
                   d_macd := current_macd;
                   d_macd_signal := current_signal;
                   d_macd_hist := current_hist;
                   d_volume := v;
                   d_timestamp := time_of_day now |}
          | _, _, _, _, _ => except index_error
          end
      end
  end.
End FetchStockData.

(** ** Pass numbers

    The code numbers neither its refresh passes nor its writes.  To speak
    about the order of passes, an attempt is tagged with the number of the
    pass that produced it and the store remembers, per symbol, the number
    carried by the attempt that last wrote the entry.  Both are ghost
    state: [merge] reads neither. *)

Record Attempt : Type := mkAttempt {
  cycleSeq : N;
  attempt : Arrival
}.

Record Stamped : Type := mkStamped {
  entries : gmap string StockData;
  stamps : gmap string N
}.

Definition merge_attempt (s : Stamped) (a : Attempt) : Stamped :=
  let sym := arr_symbol (attempt a) in
  {| entries := merge_arrival (entries s) (attempt a);
     stamps :=
       match arr_result (attempt a), entries s !! sym with
       | ErrorDict _ _, None => stamps s
       | _, _ => <[sym := cycleSeq a]> (stamps s)
       end |}.

Definition empty_stamped : Stamped := {| entries := ∅; stamps := ∅ |}.

(** ** [ensure_nse_symbol], [fetch_stocks_from_db], [get_stock] (app.py) *)

(** [s.endswith(suffix)]. *)
Definition endswith (s suffix : string) : bool :=
  let n := String.length s in
  let m := String.length suffix in
  if (m <=? n)%nat then String.eqb (String.substring (n - m) m s) suffix else false.

Definition ensure_nse_symbol (sym : string) : string :=
  if negb (endswith sym ".NS") then String.append sym ".NS" else sym.

Definition DEFAULT_STOCKS : list string :=
  ["RELIANCE.NS"; "TCS.NS"; "HDFCBANK.NS"; "INFY.NS"; "HINDUNILVR.NS"].

(** [db] is [None] when no connection could be opened; otherwise it is the
    outcome of the query, the [stock] column of each row. *)
Definition fetch_stocks_from_db (db : option (outcome (list string)))
    : list string :=
  match db with
  | None => fmap ensure_nse_symbol DEFAULT_STOCKS
  | Some (Raised _) => fmap ensure_nse_symbol DEFAULT_STOCKS
  | Some (Returned rows) =>
      match fmap ensure_nse_symbol rows with
      | [] => fmap ensure_nse_symbol DEFAULT_STOCKS
      | stocks => stocks
      end
  end.

(** [get_stock]: the entry that is rendered, or the 404 message. *)
Definition get_stock (store : gmap string StockData) (sym : string)
    : StockData + string :=
  let sym := ensure_nse_symbol sym in
  match store !! sym with
  | Some st => inl st
  | None => inr (String.append "Stock " (String.append sym " not found"))
  end.

(** ** The reference definition of MACD(12,26,9)

    Written after section 4.1 of the specification, on exact rationals
    and by index: EMA[0] = close[0] and
    EMA[i] = close[i]*alpha + EMA[i-1]*(1-alpha), alpha = 2/(span+1). *)

Definition Qc_of_Z (n : Z) : Qc := Q2Qc (inject_Z n).

Definition alpha_ref (span : Z) : Qc :=
  (Qc_of_Z 2 / (Qc_of_Z span + 1))%Qc.

Fixpoint EMA_ref (alpha : Qc) (close : nat -> Qc) (i : nat) : Qc :=
  match i with
  | O => close O
  | S j => (close (S j) * alpha + EMA_ref alpha close j * (1 - alpha))%Qc
  end.

Definition macd_ref (close : nat -> Qc) (i : nat) : Qc :=
  (EMA_ref (alpha_ref 12) close i - EMA_ref (alpha_ref 26) close i)%Qc.

Definition signal_ref (close : nat -> Qc) (i : nat) : Qc :=
  EMA_ref (alpha_ref 9) (macd_ref close) i.

(** [close[i]] of a list of samples. *)
Definition at_index (qs : list Qc) (i : nat) : Qc := default 0%Qc (qs !! i).

(** The invariant of section 3: the histogram is the difference of the
    other two fields. *)
Definition hist_identity (st : StockData) : Prop :=
  macd_hist st = (macd st - macd_signal st)%F.

(** The same for three values [m], [s], [h], with what Python's [==]
    says about it: [h] is the difference, [h == m - s] holds unless the
    difference is NaN, and it is NaN as soon as [m] or [s] is. *)
Definition hist_derived (m s h : pyfloat) : Prop :=
  h = (m - s)%F
  /\ feq h (m - s)%F = negb (is_nan h)
  /\ (is_finite m = true -> is_finite s = true -> feq h (m - s)%F = true)
  /\ (is_nan m = true \/ is_nan s = true ->
      is_nan h = true /\ feq h (m - s)%F = false).

(** ** [StockData.rsi_signal] (app.py) *)

Inductive RsiSignal : Type :=
  | Overbought | Oversold | Neutral.

Definition rsi_signal_label (r : RsiSignal) : string :=
  match r with
  | Overbought => "Overbought"
  | Oversold => "Oversold"
  | Neutral => "Neutral"
  end.

Definition rsi_signal (st : StockData) : RsiSignal :=
  if (rsi st >=? of_Z 70)%F then Overbought
  else if (rsi st <=? of_Z 30)%F then Oversold
  else Neutral.

(** The most recent result for [sym] among the arrivals, failed or not. *)
Fixpoint last_result (sym : string) (arrivals : list Arrival)
    (acc : option FetchResult) : option FetchResult :=
  match arrivals with
  | [] => acc
  | a :: rest =>
      last_result sym rest
        (if String.eqb (arr_symbol a) sym then Some (arr_result a) else acc)
  end.

(** The exception path of [fetch_stocks_from_db] in stock_analyzer.py
    returns [DEFAULT_STOCKS] as it is; the other paths are those of
    app.py. *)
Definition fetch_stocks_from_db_qt (db : option (outcome (list string)))
    : list string :=
  match db with
  | Some (Raised _) => DEFAULT_STOCKS
  | _ => fetch_stocks_from_db db
  end.

(** A rational lies in the closed interval. *)
Definition Qc_between (lo hi q : Qc) : Prop := (lo <= q)%Qc /\ (q <= hi)%Qc.

(** A float that is a number and not negative, and the values an RSI
    can take. *)
Definition nonneg_fin (x : pyfloat) : Prop :=
  exists q, x = Fin q /\ (0 <= q)%Qc.

Definition rsi_in_range (x : pyfloat) : Prop :=
  x = NaN \/ exists q, x = Fin q /\ Qc_between 0 (Qc_of_Z 100) q.

(** The changes between consecutive closes, and a float that is a
    positive number. *)
Definition deltas (qs : list Qc) : list Qc :=
  zip_with (fun cur prev => (cur + - prev)%Qc) (tail qs) qs.

Definition pos_fin (x : pyfloat) : Prop :=
  exists q, x = Fin q /\ (0 < q)%Qc.


(** ** Sample data for the concrete instances below *)

Definition demo_dict (p m s : pyfloat) : StockDict :=
  {| d_symbol := "TCS.NS"; d_price := p; d_rsi := dec 55 1;
     d_macd := m; d_macd_signal := s; d_macd_hist := (m - s)%F;
     d_volume := 1000; d_timestamp := 60 |}.

Definition demo_entry (m s : pyfloat) : StockData :=
  {| symbol := "TCS.NS"; price := dec 3400 1; rsi := dec 48 1;
     macd := m; macd_signal := s; macd_hist := (m - s)%F;
     volume := 900; timestamp := 30;
     prev_macd := fzero; prev_signal := fzero; error := None |}.

Definition demo_store (m s : pyfloat) : gmap string StockData :=
  {[ "TCS.NS" := demo_entry m s ]}.

Definition demo_short_history : list Row :=
  [mkRow (dec 100 1) 5; mkRow (dec 101 1) 6; mkRow (dec 103 1) 7].

Definition demo_closes : list Qc :=
  [Q2Qc (100 # 1); Q2Qc (101 # 1); Q2Qc (103 # 1)].

Definition demo_fetches : list Fetch :=
  [mkFetch "TCS.NS" (float_rows (Returned demo_short_history)) 60 61;
   mkFetch "TCS.NS" (Raised "timed out") 90 91].

Definition demo_rising_closes : list Qc :=
  Qc_of_Z <$> [100; 101; 102; 103; 104; 105; 106; 107; 108; 109; 110; 111;
               112; 113].

Definition demo_rising_history : list Row :=
  (fun q => mkRow (Fin q) 5) <$> demo_rising_closes.

Definition demo_falling_closes : list Qc :=
  Qc_of_Z <$> [113; 112; 111; 110; 109; 108; 107; 106; 105; 104; 103; 102;
               101; 100].

Definition demo_falling_history : list Row :=
  (fun q => mkRow (Fin q) 5) <$> demo_falling_closes.

(** * Properties *)

(** ** The merge *)

Section MergeFacts.
Implicit Types (store : gmap string StockData) (st : StockData).
Implicit Types (sym : string) (d : StockDict).

Lemma merge_lookup_existing now sym data store st :
  store !! sym = Some st ->
  merge now sym data store !! sym = Some (apply_result st data).
Proof.
  intros Hst. unfold merge, apply_result.
  destruct data as [s err | d]; rewrite Hst; apply lookup_insert_eq.
Qed.

Lemma merge_lookup_fresh_data now sym d store :
  store !! sym = None ->
  merge now sym (DataDict d) store !! sym
  = Some (apply_result (StockData_init sym now) (DataDict d)).
Proof. intros Hst. unfold merge. rewrite Hst. apply lookup_insert_eq. Qed.

Lemma merge_lookup_fresh_error now sym s err store :
  store !! sym = None ->
  merge now sym (ErrorDict s err) store = store.
Proof. intros Hst. unfold merge. by rewrite Hst. Qed.

Lemma merge_lookup_other now sym other data store :
  sym <> other ->
  merge now sym data store !! other = store !! other.
Proof.
  intros Hne. unfold merge.
  destruct data as [s err | d].
  - destruct (store !! sym); [by rewrite lookup_insert_ne | done].
  - by rewrite lookup_insert_ne.
Qed.

Lemma merge_all_snoc arrivals a store :
  merge_all (arrivals ++ [a]) store
  = merge_arrival (merge_all arrivals store) a.
Proof. unfold merge_all. by rewrite fold_left_app. Qed.

Lemma last_success_snoc sym arrivals a acc :
  last_success sym (arrivals ++ [a]) acc
  = match arr_result a with
    | DataDict d =>
        if String.eqb (arr_symbol a) sym then Some d
        else last_success sym arrivals acc
    | ErrorDict _ _ => last_success sym arrivals acc
    end.
Proof.
  revert acc. induction arrivals as [| b rest IH]; intros acc; simpl.
  - by destruct (arr_result a).
  - apply IH.
Qed.

(** Once some result for [sym] succeeded, the entry exists and its
    [macd] and [macd_signal] are those of the most recent success:
    failures in between do not touch them. *)
Lemma merge_all_tracks_last_success sym arrivals store dl :
  last_success sym arrivals None = Some dl ->
  exists st,
    merge_all arrivals store !! sym = Some st
    /\ macd st = d_macd dl /\ macd_signal st = d_macd_signal dl.
Proof.
  revert dl. induction arrivals as [| a rest IH] using rev_ind; intros dl.
  - discriminate.
  - rewrite last_success_snoc, merge_all_snoc.
    unfold merge_arrival.
    destruct a as [asym ares anow]; simpl.
    destruct ares as [s err | d].
    + intros Hl. destruct (IH _ Hl) as (st & Hst & Hm & Hs).
      destruct (decide (asym = sym)) as [-> | Hne].
      * rewrite (merge_lookup_existing _ _ _ _ _ Hst).
        eexists; split; [reflexivity | done].
      * rewrite merge_lookup_other by done. eauto.
    + destruct (String.eqb_spec asym sym) as [-> | Hne].
      * intros [= <-].
        destruct (merge_all rest store !! sym) as [st |] eqn:Hst.
        -- rewrite (merge_lookup_existing _ _ _ _ _ Hst).
           eexists; split; [reflexivity | done].
        -- rewrite (merge_lookup_fresh_data _ _ _ _ Hst).
           eexists; split; [reflexivity | done].
      * intros Hl. destruct (IH _ Hl) as (st & Hst & Hm & Hs).
        rewrite merge_lookup_other by done. eauto.
Qed.
End MergeFacts.

(** C2.  On an entry that exists, merging a successful result first moves
    the entry's [macd] and [macd_signal] into [prev_macd] and
    [prev_signal], then overwrites price, rsi, macd, macd_signal,
    macd_hist, volume and timestamp with the new values and clears the
    error.  Hence, after a successful merge, [prev_macd] and
    [prev_signal] are the [macd] and [macd_signal] delivered by the most
    recent earlier success for that symbol, whatever failures came in
    between. *)
Theorem merge_success_shifts_then_overwrites
    (now : datetime) (sym : string) (d : StockDict) :
  (forall (store : gmap string StockData) (st : StockData),
      store !! sym = Some st ->
      merge now sym (DataDict d) store !! sym
      = Some {| symbol := symbol st;
                price := d_price d; rsi := d_rsi d;
                macd := d_macd d; macd_signal := d_macd_signal d;
                macd_hist := d_macd_hist d; volume := d_volume d;
                timestamp := d_timestamp d;
                prev_macd := macd st; prev_signal := macd_signal st;
                error := None |})
  /\ (forall (arrivals : list Arrival) (store : gmap string StockData)
             (dl : StockDict),
         last_success sym arrivals None = Some dl ->
         exists st',
           merge now sym (DataDict d) (merge_all arrivals store) !! sym
           = Some st'
           /\ prev_macd st' = d_macd dl
           /\ prev_signal st' = d_macd_signal dl).
Proof.
  split.
  - intros store st Hst.
    by rewrite (merge_lookup_existing _ _ _ _ _ Hst).
  - intros arrivals store dl Hl.
    destruct (merge_all_tracks_last_success sym arrivals store dl Hl)
      as (st & Hst & Hm & Hs).
    rewrite (merge_lookup_existing _ _ _ _ _ Hst). simpl.
    eexists; split; [reflexivity |]. simpl. by rewrite Hm, Hs.
Qed.

(** C3.  On an entry that exists, merging a failed result sets the error
    and nothing else: price, rsi, macd, macd_signal, macd_hist,
    prev_macd, prev_signal, volume and timestamp keep their values. *)
Theorem merge_failure_sets_error_only
    (now : datetime) (sym s err : string)
    (store : gmap string StockData) (st : StockData) :
  store !! sym = Some st ->
  exists st',
    merge now sym (ErrorDict s err) store !! sym = Some st'
    /\ error st' = Some err
    /\ symbol st' = symbol st
    /\ price st' = price st /\ rsi st' = rsi st
    /\ macd st' = macd st /\ macd_signal st' = macd_signal st
    /\ macd_hist st' = macd_hist st
    /\ prev_macd st' = prev_macd st /\ prev_signal st' = prev_signal st
    /\ volume st' = volume st /\ timestamp st' = timestamp st.
Proof.
  intros Hst. rewrite (merge_lookup_existing _ _ _ _ _ Hst).
  eexists; split; [reflexivity |]. simpl. repeat split.
Qed.

Lemma merge_success_shifts_then_overwrites_witness :
  merge 70 "TCS.NS" (DataDict (demo_dict (dec 3500 1) (dec 13 10) (dec 11 10)))
        (demo_store (dec 10 10) (dec 12 10)) !! "TCS.NS"
  = Some {| symbol := "TCS.NS";
            price := dec 3500 1; rsi := dec 55 1;
            macd := dec 13 10; macd_signal := dec 11 10;
            macd_hist := (dec 13 10 - dec 11 10)%F; volume := 1000;
            timestamp := 60;
            prev_macd := dec 10 10; prev_signal := dec 12 10;
            error := None |}
  /\ exists st',
       merge 70 "TCS.NS"
             (DataDict (demo_dict (dec 3500 1) (dec 13 10) (dec 11 10)))
             (merge_all
                [mkArrival "TCS.NS"
                   (DataDict (demo_dict (dec 3400 1) (dec 7 10) (dec 9 10))) 50;
                 mkArrival "TCS.NS" (ErrorDict "TCS.NS" "No data returned") 55]
                ∅) !! "TCS.NS"
       = Some st'
       /\ prev_macd st' = d_macd (demo_dict (dec 3400 1) (dec 7 10) (dec 9 10))
       /\ prev_signal st'
          = d_macd_signal (demo_dict (dec 3400 1) (dec 7 10) (dec 9 10)).
Proof.
  split.
  - apply (proj1 (merge_success_shifts_then_overwrites 70 "TCS.NS"
                    (demo_dict (dec 3500 1) (dec 13 10) (dec 11 10)))
                 (demo_store (dec 10 10) (dec 12 10))
                 (demo_entry (dec 10 10) (dec 12 10))).
    reflexivity.
  - apply (proj2 (merge_success_shifts_then_overwrites 70 "TCS.NS"
                    (demo_dict (dec 3500 1) (dec 13 10) (dec 11 10)))).
    reflexivity.
Defined.

Lemma merge_failure_sets_error_only_witness :
  exists st',
    merge 70 "TCS.NS" (ErrorDict "TCS.NS" "No data returned")
          (demo_store (dec 10 10) (dec 12 10)) !! "TCS.NS" = Some st'
    /\ error st' = Some "No data returned"
    /\ symbol st' = "TCS.NS"
    /\ price st' = dec 3400 1 /\ rsi st' = dec 48 1
    /\ macd st' = dec 10 10 /\ macd_signal st' = dec 12 10
    /\ macd_hist st' = (dec 10 10 - dec 12 10)%F
    /\ prev_macd st' = fzero /\ prev_signal st' = fzero
    /\ volume st' = 900 /\ timestamp st' = 30.
Proof.
  apply (merge_failure_sets_error_only 70 "TCS.NS" "TCS.NS" "No data returned"
           (demo_store (dec 10 10) (dec 12 10))
           (demo_entry (dec 10 10) (dec 12 10))).
  reflexivity.
Defined.

(** ** Pass numbers are not consulted *)

(** C1 as the claim states it fails.  Pass 2 delivers a result for
    TCS.NS first, then the slower pass 1 delivers its own: the entry
    written by pass 2 carries number 2, the late attempt carries number
    1, and it overwrites the entry all the same. *)
Lemma stale_attempt_overwrites :
  let s := merge_attempt empty_stamped
             (mkAttempt 2
                (mkArrival "TCS.NS"
                   (DataDict (demo_dict (dec 3500 1) (dec 13 10) (dec 11 10)))
                   70)) in
  let a := mkAttempt 1
             (mkArrival "TCS.NS"
                (DataDict (demo_dict (dec 3400 1) (dec 7 10) (dec 9 10)))
                71) in
  exists (e : StockData) (n : N),
    entries s !! "TCS.NS" = Some e
    /\ stamps s !! "TCS.NS" = Some n
    /\ (cycleSeq a <= n)%N
    /\ entries (merge_attempt s a) !! "TCS.NS" <> Some e
    /\ (price <$> entries (merge_attempt s a) !! "TCS.NS")
       = Some (dec 3400 1)
    /\ price e = dec 3500 1.
Proof.
  cbv zeta. eexists. exists 2%N.
  split; [reflexivity |].
  split; [reflexivity |].
  split; [discriminate |].
  split; [| split; reflexivity].
  intros H. apply (f_equal (fmap price)) in H.
  vm_compute in H. discriminate H.
Qed.

(** C1, amended.  The store keeps no pass number and rejects nothing:
    whatever number an attempt carries, and whatever number the entry
    carries, the attempt is applied to an entry that exists.  A failed
    attempt sets the error and leaves every other field as it was; a
    successful attempt shifts [macd] and [macd_signal] into the previous
    values, overwrites the metrics and clears the error. *)
Theorem merge_attempt_applies_whatever_the_pass
    (s : Stamped) (a : Attempt) (e : StockData) (n : N) :
  entries s !! arr_symbol (attempt a) = Some e ->
  stamps s !! arr_symbol (attempt a) = Some n ->
  entries (merge_attempt s a) !! arr_symbol (attempt a)
  = Some
      match arr_result (attempt a) with
      | ErrorDict _ err =>
          {| symbol := symbol e; price := price e; rsi := rsi e;
             macd := macd e; macd_signal := macd_signal e;
             macd_hist := macd_hist e; volume := volume e;
             timestamp := timestamp e;
             prev_macd := prev_macd e; prev_signal := prev_signal e;
             error := Some err |}
      | DataDict d =>
          {| symbol := symbol e; price := d_price d; rsi := d_rsi d;
             macd := d_macd d; macd_signal := d_macd_signal d;
             macd_hist := d_macd_hist d; volume := d_volume d;
             timestamp := d_timestamp d;
             prev_macd := macd e; prev_signal := macd_signal e;
             error := None |}
      end.
Proof.
  intros He _. unfold merge_attempt, merge_arrival; simpl.
  rewrite (merge_lookup_existing _ _ _ _ _ He).
  by destruct (arr_result (attempt a)).
Qed.

Lemma merge_attempt_applies_whatever_the_pass_witness :
  entries
    (merge_attempt
       (mkStamped (demo_store (dec 10 10) (dec 12 10)) {[ "TCS.NS" := 2%N ]})
       (mkAttempt 1
          (mkArrival "TCS.NS" (ErrorDict "TCS.NS" "No data returned") 71)))
    !! "TCS.NS"
  = Some {| symbol := "TCS.NS"; price := dec 3400 1; rsi := dec 48 1;
            macd := dec 10 10; macd_signal := dec 12 10;
            macd_hist := (dec 10 10 - dec 12 10)%F;
            volume := 900; timestamp := 30;
            prev_macd := fzero; prev_signal := fzero;
            error := Some "No data returned" |}.
Proof.
  apply (merge_attempt_applies_whatever_the_pass
           (mkStamped (demo_store (dec 10 10) (dec 12 10))
              {[ "TCS.NS" := 2%N ]})
           (mkAttempt 1
              (mkArrival "TCS.NS" (ErrorDict "TCS.NS" "No data returned") 71))
           (demo_entry (dec 10 10) (dec 12 10)) 2%N);
    reflexivity.
Defined.

(** ** The crossover classifier *)

(** C4.  [macd_crossover] returns Bullish exactly when
    [prev_macd <= prev_signal] and [macd > macd_signal]; otherwise
    Bearish exactly when [prev_macd >= prev_signal] and
    [macd < macd_signal]; otherwise Above exactly when
    [macd > macd_signal]; otherwise Below exactly when
    [macd < macd_signal].  The two crossover tests come before the two
    steady-state ones.  The entries with (1.0, 1.2, 1.3, 1.1) and
    (2.0, 1.0, 0.9, 1.0) are labelled Bullish and Bearish. *)
Theorem macd_crossover_cascade (st : StockData) :
  let bull := ((prev_macd st <=? prev_signal st)
               && (macd st >? macd_signal st))%F in
  let bear := ((prev_macd st >=? prev_signal st)
               && (macd st <? macd_signal st))%F in
  (macd_crossover st = Bullish <-> bull = true)
  /\ (macd_crossover st = Bearish <-> bull = false /\ bear = true)
  /\ (macd_crossover st = Above
      <-> bull = false /\ bear = false
          /\ (macd st >? macd_signal st)%F = true)
  /\ (macd_crossover st = Below
      <-> bull = false /\ bear = false
          /\ (macd st >? macd_signal st)%F = false
          /\ (macd st <? macd_signal st)%F = true)
  /\ (forall e : StockData,
         prev_macd e = dec 10 10 -> prev_signal e = dec 12 10 ->
         macd e = dec 13 10 -> macd_signal e = dec 11 10 ->
         crossover_label (macd_crossover e) = "↑ Bullish")
  /\ (forall e : StockData,
         prev_macd e = dec 20 10 -> prev_signal e = dec 10 10 ->
         macd e = dec 9 10 -> macd_signal e = dec 10 10 ->
         crossover_label (macd_crossover e) = "↓ Bearish").
Proof.
  cbv zeta.
  split; [| split; [| split; [| split; [| split]]]].
  5, 6: intros e H1 H2 H3 H4; unfold macd_crossover;
        rewrite H1, H2, H3, H4; reflexivity.
  all: unfold macd_crossover, classify;
    destruct (prev_macd st <=? prev_signal st)%F,
             (prev_macd st >=? prev_signal st)%F,
             (macd st >? macd_signal st)%F,
             (macd st <? macd_signal st)%F;
    simpl; split; intros;
    repeat match goal with H : _ /\ _ |- _ => destruct H end;
    repeat split; congruence.
Qed.

Lemma macd_crossover_cascade_witness :
  macd_crossover
    {| symbol := "TCS.NS"; price := dec 3500 1; rsi := dec 55 1;
       macd := dec 13 10; macd_signal := dec 11 10;
       macd_hist := (dec 13 10 - dec 11 10)%F; volume := 1000;
       timestamp := 60;
       prev_macd := dec 10 10; prev_signal := dec 12 10;
       error := None |} = Bullish
  /\ crossover_label
       (macd_crossover
          {| symbol := "INFY.NS"; price := dec 1500 1; rsi := dec 40 1;
             macd := dec 9 10; macd_signal := dec 10 10;
             macd_hist := (dec 9 10 - dec 10 10)%F; volume := 10;
             timestamp := 60;
             prev_macd := dec 20 10; prev_signal := dec 10 10;
             error := None |}) = "↓ Bearish".
Proof.
  split.
  - apply (proj1 (macd_crossover_cascade _)). reflexivity.
  - apply (proj2 (proj2 (proj2 (proj2 (proj2
             (macd_crossover_cascade (StockData_init "INFY.NS" 0)))))));
      reflexivity.
Defined.

Lemma fcompare_antisym (x y : pyfloat) :
  fcompare y x = CompOpp <$> fcompare x y.
Proof.
  destruct x as [a | [] |], y as [b | [] |]; simpl; try reflexivity.
  unfold Qccompare. by rewrite <- Qcompare_antisym.
Qed.

Lemma flt_asym (x y : pyfloat) : (x <? y)%F = true -> (y <? x)%F = false.
Proof.
  unfold flt. rewrite (fcompare_antisym x y).
  by destruct (fcompare x y) as [[] |].
Qed.

Lemma fle_refl_fin (q : Qc) : (Fin q <=? Fin q)%F = true.
Proof.
  unfold fle; simpl.
  by rewrite (proj1 (Qceq_alt q q) eq_refl).
Qed.

(** C5 fails on the code by a slip.  [__init__] sets [prev_macd] and
    [prev_signal] to 0.0, so the [hasattr] test that should detect a
    first cycle never fires: the first successful merge for a symbol
    compares the new values against 0.0 <= 0.0 and reports a Bullish
    crossover whenever [macd > macd_signal], and a Bearish one whenever
    [macd < macd_signal]. *)
Theorem first_cycle_reports_a_crossover
    (now : datetime) (sym : string) (d : StockDict)
    (store : gmap string StockData) :
  store !! sym = None ->
  exists st,
    merge now sym (DataDict d) store !! sym = Some st
    /\ prev_macd st = fzero /\ prev_signal st = fzero
    /\ ((d_macd d >? d_macd_signal d)%F = true ->
        macd_crossover st = Bullish)
    /\ ((d_macd d <? d_macd_signal d)%F = true ->
        macd_crossover st = Bearish).
Proof.
  intros Hnone. rewrite (merge_lookup_fresh_data _ _ _ _ Hnone).
  eexists; split; [reflexivity |]. simpl.
  split; [reflexivity |]. split; [reflexivity |].
  unfold macd_crossover, classify; cbn [prev_macd prev_signal macd
    macd_signal overwrite update_macd_history StockData_init].
  unfold fge, fzero. rewrite fle_refl_fin. cbn [andb].
  split; intros H.
  - by rewrite H.
  - unfold fgt. by rewrite (flt_asym _ _ H), H.
Qed.

Lemma first_cycle_reports_a_crossover_witness :
  exists st,
    merge 70 "TCS.NS"
          (DataDict (demo_dict (dec 3500 1) (dec 13 10) (dec 11 10))) ∅
      !! "TCS.NS" = Some st
    /\ crossover_label (macd_crossover st) = "↑ Bullish".
Proof.
  destruct (first_cycle_reports_a_crossover 70 "TCS.NS"
              (demo_dict (dec 3500 1) (dec 13 10) (dec 11 10)) ∅
              (lookup_empty "TCS.NS"))
    as (st & Hst & _ & _ & Hbull & _).
  exists st. split; [exact Hst |].
  rewrite (Hbull eq_refl). reflexivity.
Defined.

(** ** The volume read from the last row *)

Section VolumeFacts.

(** [int] of a float that holds an integer gives that integer. *)
Lemma py_int_of_Z (n : Z) : py_int (of_Z n) = Returned n.
Proof.
  unfold py_int, of_Z. f_equal.
  change (this (Q2Qc (inject_Z n))) with (Qred (inject_Z n)).
  rewrite Qred_identity; [| by cbn; rewrite Z.gcd_1_r].
  cbn. apply Z.quot_1_r.
Qed.

(** Integers up to 2^53 in magnitude are doubles. *)
Lemma float64_of_int_small (v : Z) :
  Z.abs v <= 2 ^ 53 -> float64_of_int v = v.
Proof.
  intros Hv. unfold float64_of_int.
  destruct (Z.leb_spec (Z.log2 (Z.abs v) - 52) 0) as [He | He]; [done |].
  assert (Habs : Z.abs v = 2 ^ 53).
  { assert (Hpos : 0 < Z.abs v).
    { destruct (Z.eq_dec (Z.abs v) 0) as [E | E]; [| lia].
      rewrite E in He. cbn in He. lia. }
    pose proof (Z.log2_spec (Z.abs v) Hpos) as [Hlo _].
    assert (Hle : 2 ^ 53 <= 2 ^ Z.log2 (Z.abs v))
      by (apply Z.pow_le_mono_r; lia).
    lia. }
  destruct (Z.abs_eq_or_opp v) as [E | E]; rewrite E in Habs.
  - subst v. by vm_compute.
  - assert (Hv' : v = - 2 ^ 53) by lia. subst v. by vm_compute.
Qed.

Lemma fClose_float_row (hist : list Row) :
  fClose <$> (float_row <$> hist) = Close <$> hist.
Proof. by rewrite <- list_fmap_compose. Qed.

Lemma iloc_last_float_row (hist : list Row) :
  iloc_last (float_row <$> hist) = float_row <$> iloc_last hist.
Proof. apply fmap_last. Qed.

(** [run] written out on the rows of the int64 frame. *)
Lemma run_eq sym running0 running1 (history : outcome (list Row)) now :
  run sym running0 running1 history now
  = if negb running0 then None
    else
      let except (msg : string) :=
        if running1 then Some (error_occurred sym msg) else None in
      match history with
      | Raised msg => except msg
      | Returned hist =>
          match hist with
          | [] => Some (error_occurred sym "No data returned")
          | _ :: _ =>
              let close := fmap Close hist in
              match iloc_last (rsi_quotient_series close),
                    iloc_last hist,
                    iloc_last (macd_series close),
                    iloc_last (signal_series close),
                    iloc_last (macd_hist_series close) with
              | Some r, Some last_row, Some m, Some s, Some h =>
                  let data :=
                    {| d_symbol := sym;
                       d_price := Close last_row;
                       d_rsi := (of_Z 100 - r)%F;
                       d_macd := m;
                       d_macd_signal := s;
                       d_macd_hist := h;
                       d_volume := float64_of_int (Volume last_row);
                       d_timestamp := now |} in
                  if running1 then Some (data_ready data) else None
              | _, _, _, _, _ => except index_error
              end
          end
      end.
Proof.
  unfold run, StockFetcher_run.
  destruct running0; [| done]. cbn [negb].
  destruct history as [msg | [| r0 rest]]; [done | done |].
  change (float_rows (Returned (r0 :: rest)))
    with (Returned (float_row r0 :: (float_row <$> rest))).
  cbv beta iota zeta.
  change (float_row r0 :: (float_row <$> rest))
    with (float_row <$> (r0 :: rest)).
  rewrite fClose_float_row, iloc_last_float_row.
  destruct (iloc_last (rsi_quotient_series _)); [| done].
  destruct (iloc_last (r0 :: rest)) as [last_row |]; [| done].
  cbn [fmap option_fmap option_map float_row fVolume fClose].
  by rewrite py_int_of_Z.
Qed.
End VolumeFacts.

(** ** Series operations keep the length *)

Section SeriesLengths.
Implicit Types (s : Series).

Lemma length_diff s : length (diff s) = length s.
Proof.
  destruct s as [| x tl]; [done |]. simpl.
  rewrite length_zip_with. simpl. lia.
Qed.

Lemma length_where_ cond other s : length (where_ cond other s) = length s.
Proof. unfold where_. by rewrite length_fmap. Qed.

Lemma length_rolling_mean w s : length (rolling_mean w s) = length s.
Proof. unfold rolling_mean. by rewrite length_fmap, length_seq. Qed.

Lemma length_ewm_loop alpha weighted old_wt s :
  length (ewm_loop alpha weighted old_wt s) = length s.
Proof.
  revert weighted old_wt.
  induction s as [| cur rest IH]; intros weighted old_wt; [done |].
  cbn [ewm_loop].
  destruct (if is_nan weighted then _ else _) as [w' o'].
  cbn [length]. by rewrite IH.
Qed.

Lemma length_ewm_mean span s : length (ewm_mean span s) = length s.
Proof.
  destruct s as [| x0 rest]; [done |]. simpl.
  by rewrite length_ewm_loop.
Qed.

Lemma length_rsi_quotient_series s :
  length (rsi_quotient_series s) = length s.
Proof.
  unfold rsi_quotient_series.
  rewrite length_fmap, length_zip_with, !length_rolling_mean, length_fmap,
    !length_where_, length_diff.
  lia.
Qed.

Lemma length_macd_series s : length (macd_series s) = length s.
Proof.
  unfold macd_series. rewrite length_zip_with, !length_ewm_mean. lia.
Qed.

Lemma length_signal_series s : length (signal_series s) = length s.
Proof. unfold signal_series. by rewrite length_ewm_mean, length_macd_series. Qed.

Lemma length_macd_hist_series s : length (macd_hist_series s) = length s.
Proof.
  unfold macd_hist_series.
  rewrite length_zip_with, length_macd_series, length_signal_series. lia.
Qed.

Lemma iloc_last_nonempty {A : Type} (l : list A) :
  length l <> 0%nat -> exists x, iloc_last l = Some x.
Proof.
  intros Hlen. unfold iloc_last.
  destruct (last l) as [x |] eqn:Hl; [eauto |].
  exfalso. apply Hlen.
  destruct l as [| y l']; [done |].
  assert (Hs : is_Some (last (y :: l'))) by by apply last_is_Some.
  rewrite Hl in Hs. by destruct Hs.
Qed.

(** The shape of [StockFetcher.run] on a frame that is not empty: the
    indicators have a last value, and the outcome is decided by the
    conversion of the last volume. *)
Lemma StockFetcher_run_nonempty sym (hist : list FloatRow) last_row now :
  iloc_last hist = Some last_row ->
  exists r m sg h,
    iloc_last (rsi_quotient_series (fClose <$> hist)) = Some r
    /\ iloc_last (macd_series (fClose <$> hist)) = Some m
    /\ iloc_last (signal_series (fClose <$> hist)) = Some sg
    /\ iloc_last (macd_hist_series (fClose <$> hist)) = Some h
    /\ forall running1,
         StockFetcher_run sym true running1 (Returned hist) now
         = match py_int (fVolume last_row) with
           | Returned v =>
               if running1
               then Some (data_ready
                            {| d_symbol := sym; d_price := fClose last_row;
                               d_rsi := (of_Z 100 - r)%F; d_macd := m;
                               d_macd_signal := sg; d_macd_hist := h;
                               d_volume := v; d_timestamp := now |})
               else None
           | Raised msg =>
               if running1 then Some (error_occurred sym msg) else None
           end.
Proof.
  intros Hrow.
  assert (Hne : hist <> []) by (intros ->; discriminate Hrow).
  assert (Hclen : length (fClose <$> hist) <> 0%nat)
    by (rewrite length_fmap; by destruct hist).
  destruct (iloc_last_nonempty (rsi_quotient_series (fClose <$> hist)))
    as [r Hr]; [by rewrite length_rsi_quotient_series |].
  destruct (iloc_last_nonempty (macd_series (fClose <$> hist)))
    as [m Hm]; [by rewrite length_macd_series |].
  destruct (iloc_last_nonempty (signal_series (fClose <$> hist)))
    as [sg Hsg]; [by rewrite length_signal_series |].
  destruct (iloc_last_nonempty (macd_hist_series (fClose <$> hist)))
    as [h Hh]; [by rewrite length_macd_hist_series |].
  exists r, m, sg, h.
  repeat (split; [assumption |]).
  intros running1. unfold StockFetcher_run.
  destruct hist as [| r0 rest]; [done |].
  cbn [negb]. rewrite Hr, Hrow, Hm, Hsg, Hh. reflexivity.
Qed.

(** The same for [fetch_stock_data], when the indicator package returns
    Series as long as the one it is given. *)
Lemma fetch_stock_data_nonempty
    (ta_rsi : Z -> Series -> Series)
    (ta_macd ta_macd_signal : Z -> Z -> Z -> Series -> Series)
    sym (hist : list FloatRow) last_row now :
  (forall w s, length (ta_rsi w s) = length s) ->
  (forall a b c s, length (ta_macd a b c s) = length s) ->
  (forall a b c s, length (ta_macd_signal a b c s) = length s) ->
  iloc_last hist = Some last_row ->
  exists r m sg,
    iloc_last (ta_rsi 14 (fClose <$> hist)) = Some r
    /\ iloc_last (ta_macd 12 26 9 (fClose <$> hist)) = Some m
    /\ iloc_last (ta_macd_signal 12 26 9 (fClose <$> hist)) = Some sg
    /\ fetch_stock_data ta_rsi ta_macd ta_macd_signal sym (Returned hist) now
       = match py_int (fVolume last_row) with
         | Returned v =>
             DataDict
               {| d_symbol := sym; d_price := fClose last_row;
                  d_rsi := r; d_macd := m; d_macd_signal := sg;
                  d_macd_hist := (m - sg)%F;
                  d_volume := v; d_timestamp := now |}
         | Raised msg => ErrorDict sym msg
         end.
Proof.
  intros Hr Hm Hs Hrow.
  assert (Hclen : length (fClose <$> hist) <> 0%nat).
  { rewrite length_fmap. destruct hist; [discriminate Hrow | done]. }
  destruct (iloc_last_nonempty (ta_rsi 14 (fClose <$> hist)))
    as [r Hlr]; [by rewrite Hr |].
  destruct (iloc_last_nonempty (ta_macd 12 26 9 (fClose <$> hist)))
    as [m Hlm]; [by rewrite Hm |].
  destruct (iloc_last_nonempty (ta_macd_signal 12 26 9 (fClose <$> hist)))
    as [sg Hls]; [by rewrite Hs |].
  exists r, m, sg. repeat (split; [assumption |]).
  unfold fetch_stock_data. destruct hist as [| r0 rest]; [done |].
  by rewrite Hlr, Hlm, Hls, Hrow.
Qed.

(** [int] raises exactly on NaN and on the infinities. *)
Lemma py_int_finite (x : pyfloat) :
  is_finite x = true -> exists v, py_int x = Returned v.
Proof. destruct x; [eauto | done | done]. Qed.

Lemma py_int_not_finite (x : pyfloat) :
  is_finite x = false -> exists msg, py_int x = Raised msg.
Proof. destruct x; [done | eauto | eauto]. Qed.

(** The shape of [run] on a frame that is not empty. *)
Lemma run_nonempty sym (hist : list Row) now :
  hist <> [] ->
  exists r last_row m sg h,
    iloc_last (rsi_quotient_series (Close <$> hist)) = Some r
    /\ iloc_last hist = Some last_row
    /\ iloc_last (macd_series (Close <$> hist)) = Some m
    /\ iloc_last (signal_series (Close <$> hist)) = Some sg
    /\ iloc_last (macd_hist_series (Close <$> hist)) = Some h
    /\ run sym true true (Returned hist) now
       = Some (data_ready
                 {| d_symbol := sym; d_price := Close last_row;
                    d_rsi := (of_Z 100 - r)%F; d_macd := m;
                    d_macd_signal := sg; d_macd_hist := h;
                    d_volume := float64_of_int (Volume last_row);
                    d_timestamp := now |}).
Proof.
  intros Hne.
  assert (Hlen : length hist <> 0%nat) by by destruct hist.
  assert (Hclen : length (Close <$> hist) <> 0%nat)
    by by rewrite length_fmap.
  destruct (iloc_last_nonempty (rsi_quotient_series (Close <$> hist)))
    as [r Hr]; [by rewrite length_rsi_quotient_series |].
  destruct (iloc_last_nonempty hist Hlen) as [last_row Hrow].
  destruct (iloc_last_nonempty (macd_series (Close <$> hist)))
    as [m Hm]; [by rewrite length_macd_series |].
  destruct (iloc_last_nonempty (signal_series (Close <$> hist)))
    as [sg Hsg]; [by rewrite length_signal_series |].
  destruct (iloc_last_nonempty (macd_hist_series (Close <$> hist)))
    as [h Hh]; [by rewrite length_macd_hist_series |].
  exists r, last_row, m, sg, h.
  repeat (split; [assumption |]).
  rewrite run_eq. destruct hist as [| r0 rest]; [done |].
  cbn [negb]. rewrite Hr, Hrow, Hm, Hsg, Hh. reflexivity.
Qed.
End SeriesLengths.

(** ** Short series *)

(** C6 as the claim states it fails: a history of three samples is
    processed like any other.  [run] emits [data_ready]; the RSI it
    carries is NaN (the 14-sample windows are not filled yet) and the
    MACD is a number. *)
Lemma short_history_yields_metrics :
  (length demo_short_history < 27)%nat
  /\ exists d,
       run "TCS.NS" true true (Returned demo_short_history) 60
       = Some (data_ready d)
       /\ d_price d = dec 103 1
       /\ d_volume d = 7
       /\ is_nan (d_rsi d) = true
       /\ is_finite (d_macd d) = true.
Proof.
  split; [simpl; lia |].
  eexists. split; [reflexivity |].
  repeat split; vm_compute; reflexivity.
Qed.

(** C6, amended.  The computation has no minimum length and no
    InsufficientDataError.  On an empty history it fails with the
    message "No data returned".  On a history that is not empty, also
    one of fewer than 27 samples, the outcome is decided by the volume
    of the last row alone: when it is a number the metrics dictionary is
    produced, and when it is missing (NaN) or infinite the run fails
    with the message of [int].  A frame with an int64 volume column
    always gives the dictionary.  The same holds for [fetch_stock_data]
    as long as the indicator package returns a Series as long as the one
    it is given. *)
Theorem run_fails_without_rows_or_volume
    (sym : string) (hist : list FloatRow) (now : datetime) :
  (hist = [] ->
   StockFetcher_run sym true true (Returned hist) now
   = Some (error_occurred sym "No data returned"))
  /\ (forall last_row,
         iloc_last hist = Some last_row ->
         is_finite (fVolume last_row) = true ->
         exists d,
           StockFetcher_run sym true true (Returned hist) now
           = Some (data_ready d)
           /\ py_int (fVolume last_row) = Returned (d_volume d))
  /\ (forall last_row,
         iloc_last hist = Some last_row ->
         is_finite (fVolume last_row) = false ->
         exists msg,
           StockFetcher_run sym true true (Returned hist) now
           = Some (error_occurred sym msg)
           /\ py_int (fVolume last_row) = Raised msg)
  /\ (forall rows : list Row,
         rows <> [] ->
         exists d, run sym true true (Returned rows) now = Some (data_ready d))
  /\ (forall (ta_rsi : Z -> Series -> Series)
             (ta_macd ta_macd_signal : Z -> Z -> Z -> Series -> Series),
         (forall w s, length (ta_rsi w s) = length s) ->
         (forall f sl sg s, length (ta_macd f sl sg s) = length s) ->
         (forall f sl sg s, length (ta_macd_signal f sl sg s) = length s) ->
         (hist = [] ->
          fetch_stock_data ta_rsi ta_macd ta_macd_signal sym
            (Returned hist) now
          = ErrorDict sym "No data returned")
         /\ (forall last_row,
                iloc_last hist = Some last_row ->
                is_finite (fVolume last_row) = true ->
                exists d,
                  fetch_stock_data ta_rsi ta_macd ta_macd_signal sym
                    (Returned hist) now
                  = DataDict d
                  /\ py_int (fVolume last_row) = Returned (d_volume d))
         /\ (forall last_row,
                iloc_last hist = Some last_row ->
                is_finite (fVolume last_row) = false ->
                exists msg,
                  fetch_stock_data ta_rsi ta_macd ta_macd_signal sym
                    (Returned hist) now
                  = ErrorDict sym msg
                  /\ py_int (fVolume last_row) = Raised msg)).
Proof.
  split; [by intros -> |].
  split.
  { intros last_row Hrow Hfin.
    destruct (StockFetcher_run_nonempty sym hist last_row now Hrow)
      as (r & m & sg & h & _ & _ & _ & _ & Hrun).
    destruct (py_int_finite _ Hfin) as [v Hv].
    rewrite (Hrun true), Hv. eexists. split; [reflexivity | done]. }
  split.
  { intros last_row Hrow Hfin.
    destruct (StockFetcher_run_nonempty sym hist last_row now Hrow)
      as (r & m & sg & h & _ & _ & _ & _ & Hrun).
    destruct (py_int_not_finite _ Hfin) as [msg Hmsg].
    rewrite (Hrun true), Hmsg. by exists msg. }
  split.
  { intros rows Hne.
    destruct (run_nonempty sym rows now Hne)
      as (r & last_row & m & sg & h & _ & _ & _ & _ & _ & Hrun).
    eauto. }
  intros ta_rsi ta_macd ta_macd_signal Hr Hm Hs.
  split; [by intros -> |].
  split.
  - intros last_row Hrow Hfin.
    destruct (fetch_stock_data_nonempty ta_rsi ta_macd ta_macd_signal
                sym hist last_row now Hr Hm Hs Hrow)
      as (r & m & sg & _ & _ & _ & Hf).
    destruct (py_int_finite _ Hfin) as [v Hv].
    rewrite Hf, Hv. eexists. split; [reflexivity | done].
  - intros last_row Hrow Hfin.
    destruct (fetch_stock_data_nonempty ta_rsi ta_macd ta_macd_signal
                sym hist last_row now Hr Hm Hs Hrow)
      as (r & m & sg & _ & _ & _ & Hf).
    destruct (py_int_not_finite _ Hfin) as [msg Hmsg].
    rewrite Hf, Hmsg. by exists msg.
Qed.

Lemma run_fails_without_rows_or_volume_witness :
  (exists d,
      StockFetcher_run "TCS.NS" true true
        (Returned [mkFloatRow (dec 100 1) (of_Z 5);
                   mkFloatRow (dec 101 1) (of_Z 6)]) 60
      = Some (data_ready d)
      /\ py_int (of_Z 6) = Returned (d_volume d))
  /\ (exists msg,
         StockFetcher_run "TCS.NS" true true
           (Returned [mkFloatRow (dec 100 1) (of_Z 5);
                      mkFloatRow (dec 101 1) NaN]) 60
         = Some (error_occurred "TCS.NS" msg)
         /\ py_int NaN = Raised msg)
  /\ (exists d,
         run "TCS.NS" true true (Returned demo_short_history) 60
         = Some (data_ready d)).
Proof.
  split; [| split].
  - apply (proj1 (proj2 (run_fails_without_rows_or_volume "TCS.NS"
                           [mkFloatRow (dec 100 1) (of_Z 5);
                            mkFloatRow (dec 101 1) (of_Z 6)] 60))
             (mkFloatRow (dec 101 1) (of_Z 6))); reflexivity.
  - apply (proj1 (proj2 (proj2 (run_fails_without_rows_or_volume "TCS.NS"
                                  [mkFloatRow (dec 100 1) (of_Z 5);
                                   mkFloatRow (dec 101 1) NaN] 60)))
             (mkFloatRow (dec 101 1) NaN)); reflexivity.
  - apply (proj1 (proj2 (proj2 (proj2 (run_fails_without_rows_or_volume
                                         "TCS.NS" [] 60))))
             demo_short_history).
    discriminate.
Defined.

(** ** The exponential averages on finite values *)

Section EwmFacts.
Implicit Types (alpha w x : Qc) (qs : list Qc) (c : nat -> Qc).

Lemma ewm_step_fin alpha w x :
  ((fone * (fone - Fin alpha) * Fin w + Fin alpha * Fin x)
   / (fone * (fone - Fin alpha) + Fin alpha))%F
  = Fin (x * alpha + w * (1 - alpha))%Qc.
Proof.
  cbn [fone fsub fneg fadd fmul fdiv].
  replace (1 * (1 + - alpha) + alpha)%Qc with 1%Qc by ring.
  change (Qc_is_zero 1) with false. cbn iota.
  f_equal. field. discriminate.
Qed.

(** The loop of [ewm_mean] walks the reference recurrence: started on
    EMA[j] with the samples from index [j+1] on, it yields EMA[j+1],
    EMA[j+2], ... *)
Lemma ewm_loop_ref alpha c (rest : Series) (j : nat) :
  (forall k y, rest !! k = Some y -> y = Fin (c (S j + k)%nat)) ->
  ewm_loop (Fin alpha) (Fin (EMA_ref alpha c j)) fone rest
  = (fun i => Fin (EMA_ref alpha c i)) <$> seq (S j) (length rest).
Proof.
  revert j. induction rest as [| cur rest IH]; intros j Hrest; [done |].
  assert (Hcur : cur = Fin (c (S j))).
  { rewrite (Hrest 0%nat cur eq_refl). by rewrite Nat.add_0_r. }
  subst cur. cbn [ewm_loop is_nan]. rewrite ewm_step_fin.
  cbn [length seq]. rewrite fmap_cons. f_equal.
  apply (IH (S j)). intros k y Hk.
  rewrite (Hrest (S k) y Hk). by rewrite Nat.add_succ_r.
Qed.

Lemma ewm_mean_ref (span : Z) alpha qs :
  alpha_of_span span = Fin alpha ->
  ewm_mean span (Fin <$> qs)
  = (fun i => Fin (EMA_ref alpha (at_index qs) i)) <$> seq 0 (length qs).
Proof.
  intros Halpha. destruct qs as [| q0 rest]; [done |].
  rewrite fmap_cons. cbn [ewm_mean length seq]. rewrite Halpha.
  rewrite fmap_cons. f_equal.
  change (Fin q0) with (Fin (EMA_ref alpha (at_index (q0 :: rest)) 0)).
  rewrite ewm_loop_ref.
  - by rewrite length_fmap.
  - intros k y Hk. rewrite list_lookup_fmap in Hk.
    change (at_index (q0 :: rest) (1 + k)) with (at_index rest k).
    unfold at_index.
    destruct (rest !! k) as [q |]; simpl in *; congruence.
Qed.

Lemma EMA_ref_ext alpha (f g : nat -> Qc) (i : nat) :
  (forall k, (k <= i)%nat -> f k = g k) ->
  EMA_ref alpha f i = EMA_ref alpha g i.
Proof.
  induction i as [| j IH]; intros Hfg; simpl.
  - apply Hfg. lia.
  - rewrite (Hfg (S j)) by lia. rewrite IH; [done |].
    intros k Hk. apply Hfg. lia.
Qed.

Lemma alpha_of_span_12 : alpha_of_span 12 = Fin (alpha_ref 12).
Proof. reflexivity. Qed.

Lemma alpha_of_span_26 : alpha_of_span 26 = Fin (alpha_ref 26).
Proof. reflexivity. Qed.

Lemma alpha_of_span_9 : alpha_of_span 9 = Fin (alpha_ref 9).
Proof. reflexivity. Qed.

Lemma fmap_seq_ext {A : Type} (f g : nat -> A) (start len : nat) :
  (forall i, (start <= i < start + len)%nat -> f i = g i) ->
  f <$> seq start len = g <$> seq start len.
Proof.
  revert start. induction len as [| len IH]; intros start Hfg; [done |].
  cbn [seq]. rewrite !fmap_cons. f_equal.
  - apply Hfg. lia.
  - apply IH. intros i Hi. apply Hfg. lia.
Qed.

Lemma zip_with_fmap_seq {A B C : Type} (h : A -> B -> C)
    (f : nat -> A) (g : nat -> B) (start len : nat) :
  zip_with h (f <$> seq start len) (g <$> seq start len)
  = (fun i => h (f i) (g i)) <$> seq start len.
Proof.
  revert start. induction len as [| len IH]; intros start; [done |].
  cbn [seq]. rewrite !fmap_cons. cbn [zip_with]. f_equal. apply IH.
Qed.

Lemma last_fmap_seq {A : Type} (f : nat -> A) (n : nat) :
  n <> 0%nat -> iloc_last (f <$> seq 0 n) = Some (f (n - 1)%nat).
Proof.
  intros Hn. unfold iloc_last. rewrite fmap_last, last_lookup, length_seq.
  rewrite lookup_seq_lt by lia. simpl. do 2 f_equal. lia.
Qed.

Lemma at_index_fmap_seq (f : nat -> Qc) (n i : nat) :
  (i < n)%nat -> at_index (f <$> seq 0 n) i = f i.
Proof.
  intros Hi. unfold at_index.
  rewrite list_lookup_fmap, lookup_seq_lt by lia. reflexivity.
Qed.

(** On finite closes the three Series of [run] are the reference ones. *)
Lemma macd_series_ref qs :
  macd_series (Fin <$> qs)
  = (fun i => Fin (macd_ref (at_index qs) i)) <$> seq 0 (length qs).
Proof.
  unfold macd_series.
  rewrite (ewm_mean_ref 12 _ qs alpha_of_span_12).
  rewrite (ewm_mean_ref 26 _ qs alpha_of_span_26).
  by rewrite zip_with_fmap_seq.
Qed.

Lemma signal_series_ref qs :
  signal_series (Fin <$> qs)
  = (fun i => Fin (signal_ref (at_index qs) i)) <$> seq 0 (length qs).
Proof.
  unfold signal_series. rewrite macd_series_ref.
  rewrite (list_fmap_compose (macd_ref (at_index qs)) Fin).
  rewrite (ewm_mean_ref 9 _ _ alpha_of_span_9).
  rewrite length_fmap, length_seq.
  apply fmap_seq_ext. intros i Hi. f_equal. unfold signal_ref.
  apply EMA_ref_ext. intros k Hk. apply at_index_fmap_seq. lia.
Qed.

Lemma macd_hist_series_ref qs :
  macd_hist_series (Fin <$> qs)
  = (fun i => Fin (macd_ref (at_index qs) i - signal_ref (at_index qs) i)%Qc)
    <$> seq 0 (length qs).
Proof.
  unfold macd_hist_series. rewrite macd_series_ref, signal_series_ref.
  by rewrite zip_with_fmap_seq.
Qed.

(** What [run] reports on a history of finite closes. *)
Lemma run_reports_reference sym (hist : list Row) qs now :
  hist <> [] ->
  Close <$> hist = Fin <$> qs ->
  exists d,
    run sym true true (Returned hist) now = Some (data_ready d)
    /\ d_macd d = Fin (macd_ref (at_index qs) (length qs - 1))
    /\ d_macd_signal d = Fin (signal_ref (at_index qs) (length qs - 1))
    /\ d_macd_hist d
       = Fin (macd_ref (at_index qs) (length qs - 1)
              - signal_ref (at_index qs) (length qs - 1))%Qc.
Proof.
  intros Hne Hclose.
  destruct (run_nonempty sym hist now Hne)
    as (r & last_row & m & sg & h & _ & _ & Hm & Hsg & Hh & Hrun).
  assert (Hlen : length qs <> 0%nat).
  { intros H0. apply Hne. apply (f_equal length) in Hclose.
    rewrite !length_fmap, H0 in Hclose. by destruct hist. }
  rewrite Hclose in Hm, Hsg, Hh.
  rewrite macd_series_ref, last_fmap_seq in Hm by done.
  rewrite signal_series_ref, last_fmap_seq in Hsg by done.
  rewrite macd_hist_series_ref, last_fmap_seq in Hh by done.
  injection Hm as <-. injection Hsg as <-. injection Hh as <-.
  eexists. split; [exact Hrun |]. by simpl.
Qed.
End EwmFacts.

(** C7.  On every history of finite closes that is not empty, the MACD
    and signal Series computed by [run] are the reference ones: the fast
    and slow averages follow EMA[0] = close[0] and
    EMA[i] = close[i]*alpha + EMA[i-1]*(1-alpha) with alpha = 2/(span+1)
    for spans 12 and 26, macd[i] is their difference, the signal is the
    same average with span 9 over the macd Series, and the values
    reported are the last elements of these Series. *)
Theorem macd_matches_reference
    (sym : string) (hist : list Row) (qs : list Qc) (now : datetime) :
  hist <> [] ->
  Close <$> hist = Fin <$> qs ->
  macd_series (Close <$> hist)
  = (fun i => Fin (macd_ref (at_index qs) i)) <$> seq 0 (length qs)
  /\ signal_series (Close <$> hist)
     = (fun i => Fin (signal_ref (at_index qs) i)) <$> seq 0 (length qs)
  /\ exists d,
       run sym true true (Returned hist) now = Some (data_ready d)
       /\ d_macd d = Fin (macd_ref (at_index qs) (length qs - 1))
       /\ d_macd_signal d = Fin (signal_ref (at_index qs) (length qs - 1)).
Proof.
  intros Hne Hclose.
  split; [rewrite Hclose; apply macd_series_ref |].
  split; [rewrite Hclose; apply signal_series_ref |].
  destruct (run_reports_reference sym hist qs now Hne Hclose)
    as (d & Hrun & Hm & Hs & _).
  eauto.
Qed.

Lemma macd_matches_reference_witness :
  exists d,
    run "TCS.NS" true true (Returned demo_short_history) 60
    = Some (data_ready d)
    /\ d_macd d = Fin (macd_ref (at_index demo_closes) 2)
    /\ d_macd_signal d = Fin (signal_ref (at_index demo_closes) 2).
Proof.
  apply (proj2 (proj2 (macd_matches_reference
                         "TCS.NS" demo_short_history demo_closes 60
                         ltac:(discriminate) eq_refl))).
Defined.

(** ** Flat series *)

Section FlatFacts.
Implicit Types (alpha c : Qc) (f : nat -> Qc).

Lemma EMA_ref_const alpha f c (i : nat) :
  (forall k, (k <= i)%nat -> f k = c) -> EMA_ref alpha f i = c.
Proof.
  induction i as [| j IH]; intros Hf; simpl.
  - apply Hf. lia.
  - rewrite (Hf (S j)) by lia. rewrite IH by (intros k Hk; apply Hf; lia).
    ring.
Qed.

Lemma macd_ref_const f c (i : nat) :
  (forall k, (k <= i)%nat -> f k = c) -> macd_ref f i = 0%Qc.
Proof.
  intros Hf. unfold macd_ref. rewrite !(EMA_ref_const _ f c i Hf). ring.
Qed.

Lemma signal_ref_const f c (i : nat) :
  (forall k, (k <= i)%nat -> f k = c) -> signal_ref f i = 0%Qc.
Proof.
  intros Hf. unfold signal_ref. apply EMA_ref_const.
  intros k Hk. apply (macd_ref_const f c). intros k' Hk'. apply Hf. lia.
Qed.

Lemma at_index_replicate c (n k : nat) :
  (k < n)%nat -> at_index (replicate n c) k = c.
Proof.
  intros Hk. unfold at_index. by rewrite lookup_replicate_2.
Qed.
End FlatFacts.

(** C8 as the claim states it fails: on 27 equal closes of 100.0 the
    average gain and the average loss are both 0, their quotient is
    0/0, and the RSI that [run] reports is NaN, not 50. *)
Lemma flat_history_rsi_is_not_50 :
  exists d,
    run "TCS.NS" true true (Returned (replicate 27 (mkRow (dec 100 1) 5))) 60
    = Some (data_ready d)
    /\ d_rsi d = NaN
    /\ feq (d_rsi d) (of_Z 50) = false
    /\ is_finite (d_rsi d) = false.
Proof.
  eexists. split; [vm_compute; reflexivity |].
  repeat split.
Qed.

(** C8, amended.  For every flat series of finite closes with at least
    27 samples, [run] reports macd = 0, signal = 0 and macd_hist = 0. *)
Theorem flat_history_macd_hist_is_zero
    (sym : string) (hist : list Row) (c : Qc) (n : nat) (now : datetime) :
  (27 <= n)%nat ->
  Close <$> hist = replicate n (Fin c) ->
  exists d,
    run sym true true (Returned hist) now = Some (data_ready d)
    /\ d_macd d = fzero
    /\ d_macd_signal d = fzero
    /\ d_macd_hist d = fzero.
Proof.
  intros Hn Hclose.
  assert (Hne : hist <> []).
  { intros ->. destruct n; [lia | discriminate]. }
  rewrite <- fmap_replicate in Hclose.
  destruct (run_reports_reference sym hist _ now Hne Hclose)
    as (d & Hrun & Hm & Hs & Hh).
  rewrite length_replicate in Hm, Hs, Hh.
  assert (Hc : forall k, (k <= n - 1)%nat ->
                         at_index (replicate n c) k = c).
  { intros k Hk. apply at_index_replicate. lia. }
  rewrite (macd_ref_const _ c _ Hc) in Hm, Hh.
  rewrite (signal_ref_const _ c _ Hc) in Hs, Hh.
  replace (0 - 0)%Qc with 0%Qc in Hh by ring.
  exists d. repeat split; assumption.
Qed.

Lemma flat_history_macd_hist_is_zero_witness :
  exists d,
    run "TCS.NS" true true (Returned (replicate 27 (mkRow (dec 100 1) 5))) 60
    = Some (data_ready d)
    /\ d_macd d = fzero
    /\ d_macd_signal d = fzero
    /\ d_macd_hist d = fzero.
Proof.
  apply (flat_history_macd_hist_is_zero "TCS.NS"
           (replicate 27 (mkRow (dec 100 1) 5)) (Q2Qc (100 # 1)) 27 60).
  - simpl. lia.
  - reflexivity.
Defined.

(** ** The histogram identity *)

Section HistogramFacts.
Variable ta_rsi : Z -> Series -> Series.
Variable ta_macd ta_macd_signal : Z -> Z -> Z -> Series -> Series.

Lemma fetch_stock_data_hist sym history now d :
  fetch_stock_data ta_rsi ta_macd ta_macd_signal sym history now
  = DataDict d ->
  d_macd_hist d = (d_macd d - d_macd_signal d)%F.
Proof.
  unfold fetch_stock_data.
  destruct history as [msg | [| r0 rest]]; [done | done |].
  destruct (iloc_last (ta_rsi _ _)); [| done].
  destruct (iloc_last (ta_macd _ _ _ _)); [| done].
  destruct (iloc_last (ta_macd_signal _ _ _ _)); [| done].
  destruct (iloc_last (r0 :: rest)) as [last_row |]; [| done].
  destruct (py_int (fVolume last_row)); [done |].
  by intros [= <-].
Qed.

Lemma last_zip_with {A B C : Type} (f : A -> B -> C)
    (l : list A) (k : list B) (z : C) :
  length l = length k ->
  last (zip_with f l k) = Some z ->
  exists x y, last l = Some x /\ last k = Some y /\ z = f x y.
Proof.
  intros Hlen. rewrite !last_lookup, length_zip_with, <- Hlen, Nat.min_id.
  rewrite lookup_zip_with. intros Hz.
  destruct (l !! pred (length l)) as [x |]; [| done].
  destruct (k !! pred (length l)) as [y |]; [| done].
  simpl in Hz. exists x, y. repeat split. congruence.
Qed.

Lemma StockFetcher_run_hist sym running0 running1 history now d :
  StockFetcher_run sym running0 running1 history now = Some (data_ready d) ->
  d_macd_hist d = (d_macd d - d_macd_signal d)%F.
Proof.
  unfold StockFetcher_run.
  destruct running0; [| done]. cbn [negb].
  destruct history as [msg | [| r0 rest]];
    [by destruct running1 | done |].
  destruct (iloc_last (rsi_quotient_series _)); [| by destruct running1].
  destruct (iloc_last (r0 :: rest)) as [last_row |];
    [| by destruct running1].
  destruct (iloc_last (macd_series _)) as [m |] eqn:Hm;
    [| by destruct running1].
  destruct (iloc_last (signal_series _)) as [sg |] eqn:Hs;
    [| by destruct running1].
  destruct (iloc_last (macd_hist_series _)) as [h |] eqn:Hh;
    [| by destruct running1].
  destruct (py_int (fVolume last_row)); [by destruct running1 |].
  destruct running1; [| done]. intros [= <-]. simpl.
  unfold iloc_last, macd_hist_series in *.
  apply last_zip_with in Hh
      as (x & y & Hx & Hy & ->);
    [| by rewrite length_signal_series, length_macd_series].
  congruence.
Qed.

Lemma run_hist sym running0 running1 history now d :
  run sym running0 running1 history now = Some (data_ready d) ->
  d_macd_hist d = (d_macd d - d_macd_signal d)%F.
Proof. apply StockFetcher_run_hist. Qed.

(** A value that is already a multiple of the unit is kept by the
    rounding. *)
Lemma round_half_even_integer (q : Q) (k : Z) :
  q == inject_Z k -> round_half_even q = k.
Proof.
  intros Hq. unfold round_half_even.
  rewrite (Qfloor_comp _ _ Hq), Qfloor_Z.
  assert (Hz : q - inject_Z k == 0) by (rewrite Hq; ring).
  destruct (Qcompare_spec (q - inject_Z k) (1 # 2)) as [He | Hl | Hg];
    [rewrite Hz in He; discriminate He | reflexivity |].
  rewrite Hz in Hg. vm_compute in Hg. discriminate Hg.
Qed.

Lemma pow10_nonzero (n : nat) : ~ pow10 n == 0.
Proof.
  unfold pow10. intros H.
  assert (Hpos : (0 < inject_Z (10 ^ Z.of_nat n))%Q).
  { rewrite <- (Zlt_Qlt 0). apply Z.pow_pos_nonneg; lia. }
  rewrite H in Hpos. by apply Qlt_irrefl in Hpos.
Qed.

(** [StockDataFetcher.run] rounds the difference of the two rounded
    values once more. *)
Lemma StockDataFetcher_run_hist sym history now d :
  StockDataFetcher_run ta_rsi ta_macd ta_macd_signal sym history now
  = data_ready d ->
  d_macd_hist d = py_round (d_macd d - d_macd_signal d)%F 4.
Proof.
  unfold StockDataFetcher_run.
  destruct history as [msg | [| r0 rest]]; [done | done |].
  destruct (iloc_last (ta_rsi _ _)); [| done].
  destruct (iloc_last (ta_macd _ _ _ _)); [| done].
  destruct (iloc_last (ta_macd_signal _ _ _ _)); [| done].
  destruct (iloc_last (Close <$> _)); [| done].
  destruct (iloc_last (Volume <$> _)); [| done].
  by intros [= <-].
Qed.

(** What [==] says about a histogram that is the difference. *)
Lemma feq_refl_iff (h : pyfloat) : feq h h = negb (is_nan h).
Proof.
  destruct h as [q | [|] |]; try reflexivity.
  unfold feq, fcompare. cbn [is_nan negb].
  by rewrite (proj1 (Qceq_alt q q) eq_refl).
Qed.

Lemma fsub_finite (m s : pyfloat) :
  is_finite m = true -> is_finite s = true -> is_finite (m - s)%F = true.
Proof. by destruct m, s. Qed.

Lemma fsub_nan (m s : pyfloat) :
  is_nan m = true \/ is_nan s = true -> is_nan (m - s)%F = true.
Proof.
  intros [H | H].
  - by destruct m.
  - destruct s; try done. by destruct m.
Qed.

Lemma hist_identity_derived (m s h : pyfloat) :
  h = (m - s)%F -> hist_derived m s h.
Proof.
  intros ->. unfold hist_derived.
  split; [reflexivity |].
  split; [apply feq_refl_iff |].
  split.
  - intros Hm Hs. rewrite feq_refl_iff.
    pose proof (fsub_finite m s Hm Hs) as Hf.
    by destruct (m - s)%F.
  - intros Hnan. pose proof (fsub_nan m s Hnan) as Hn.
    split; [done |]. by rewrite feq_refl_iff, Hn.
Qed.

Lemma hist_identity_init sym now : hist_identity (StockData_init sym now).
Proof. reflexivity. Qed.

Lemma merge_keeps_hist_identity now sym data store :
  match data with
  | DataDict d => d_macd_hist d = (d_macd d - d_macd_signal d)%F
  | ErrorDict _ _ => True
  end ->
  map_Forall (fun _ st => hist_identity st) store ->
  map_Forall (fun _ st => hist_identity st) (merge now sym data store).
Proof.
  intros Hdata Hstore. unfold merge.
  destruct data as [s err | d].
  - destruct (store !! sym) as [st |] eqn:Hst; [| done].
    apply map_Forall_insert_2; [| done].
    exact (Hstore sym st Hst).
  - apply map_Forall_insert_2; [| done]. exact Hdata.
Qed.

Lemma background_update_keeps_hist_identity fetches store :
  map_Forall (fun _ st => hist_identity st) store ->
  map_Forall (fun _ st => hist_identity st)
    (background_update ta_rsi ta_macd ta_macd_signal fetches store).
Proof.
  unfold background_update, merge_all.
  revert store. induction fetches as [| f rest IH]; intros store Hstore;
    [done |].
  rewrite fmap_cons. cbn [fold_left]. apply IH.
  unfold merge_arrival, arrival_of; cbn [arr_now arr_symbol arr_result].
  apply merge_keeps_hist_identity; [| done].
  destruct (fetch_stock_data _ _ _ _ _ _) as [s err | d] eqn:Hf; [done |].
  by apply fetch_stock_data_hist in Hf.
Qed.
End HistogramFacts.

(** C9 as the claim states it fails: on a history of three samples the
    indicator package has no MACD and no signal yet (both are NaN until
    their windows are filled), [fetch_stock_data] returns the dictionary
    with macd_hist = NaN, and [macd_hist == macd - macd_signal] is
    false, also for the entry that the merge stores.  The same happens
    in [StockDataFetcher.run], and in [StockFetcher.run] on a close that
    is NaN. *)
Lemma nan_macd_hist_is_not_the_difference :
  let ta_rsi := fun (_ : Z) (s : Series) => replicate (length s) NaN in
  let ta_nan := fun (_ _ _ : Z) (s : Series) => replicate (length s) NaN in
  (exists d,
      fetch_stock_data ta_rsi ta_nan ta_nan "TCS.NS"
        (float_rows (Returned demo_short_history)) 60
      = DataDict d
      /\ feq (d_macd_hist d) (d_macd d - d_macd_signal d)%F = false
      /\ exists st,
           merge 61 "TCS.NS" (DataDict d) ∅ !! "TCS.NS" = Some st
           /\ feq (macd_hist st) (macd st - macd_signal st)%F = false)
  /\ (exists d,
         StockDataFetcher_run ta_rsi ta_nan ta_nan "TCS.NS"
           (Returned demo_short_history) 60
         = data_ready d
         /\ feq (d_macd_hist d) (d_macd d - d_macd_signal d)%F = false)
  /\ (exists d,
         StockFetcher_run "TCS.NS" true true
           (Returned [mkFloatRow NaN (of_Z 5)]) 60
         = Some (data_ready d)
         /\ feq (d_macd_hist d) (d_macd d - d_macd_signal d)%F = false).
Proof.
  cbv zeta. split; [| split].
  - eexists. split; [reflexivity |]. split; [reflexivity |].
    eexists. split; [by rewrite merge_lookup_fresh_data |]. reflexivity.
  - eexists. split; reflexivity.
  - eexists. split; reflexivity.
Qed.

(** C9, amended.  In every result dictionary computed by
    [fetch_stock_data] or [StockFetcher.run], and in every entry of the
    store after any number of refresh passes started from the empty
    store, macd_hist is the difference macd - macd_signal:
    [macd_hist == macd - macd_signal] holds exactly when the histogram
    is not NaN, it holds whenever macd and macd_signal are finite, and
    when one of them is NaN the histogram is NaN and the comparison is
    false.  A new entry starts with 0 = 0 - 0, a successful merge copies
    the three values of a result, and a failed merge touches none of
    them.  In [StockDataFetcher.run] macd_hist is the difference of the
    rounded macd and signal, rounded once more to 4 digits, and is NaN
    when one of them is. *)
Theorem macd_hist_is_the_difference_unless_nan
    (ta_rsi : Z -> Series -> Series)
    (ta_macd ta_macd_signal : Z -> Z -> Z -> Series -> Series) :
  (forall sym history now d,
      fetch_stock_data ta_rsi ta_macd ta_macd_signal sym history now
      = DataDict d ->
      hist_derived (d_macd d) (d_macd_signal d) (d_macd_hist d))
  /\ (forall sym running0 running1 history now d,
         StockFetcher_run sym running0 running1 history now
         = Some (data_ready d) ->
         hist_derived (d_macd d) (d_macd_signal d) (d_macd_hist d))
  /\ (forall (fetches : list Fetch) (sym : string) (st : StockData),
         background_update ta_rsi ta_macd ta_macd_signal fetches ∅ !! sym
         = Some st ->
         hist_derived (macd st) (macd_signal st) (macd_hist st))
  /\ (forall sym history now d,
         StockDataFetcher_run ta_rsi ta_macd ta_macd_signal sym history now
         = data_ready d ->
         d_macd_hist d = py_round (d_macd d - d_macd_signal d)%F 4
         /\ (is_nan (d_macd d) = true \/ is_nan (d_macd_signal d) = true ->
             is_nan (d_macd_hist d) = true
             /\ feq (d_macd_hist d) (d_macd d - d_macd_signal d)%F = false)).
Proof.
  split.
  { intros sym history now d Hd. apply hist_identity_derived.
    by apply fetch_stock_data_hist in Hd. }
  split.
  { intros sym running0 running1 history now d Hd.
    apply hist_identity_derived. by apply StockFetcher_run_hist in Hd. }
  split.
  { intros fetches sym st Hst. apply hist_identity_derived.
    exact (background_update_keeps_hist_identity ta_rsi ta_macd
             ta_macd_signal fetches ∅ (map_Forall_empty _) sym st Hst). }
  intros sym history now d Hd.
  apply StockDataFetcher_run_hist in Hd. split; [exact Hd |].
  intros Hnan. pose proof (fsub_nan _ _ Hnan) as Hn.
  rewrite Hd. destruct (d_macd d - d_macd_signal d)%F; done.
Qed.

Lemma macd_hist_is_the_difference_unless_nan_witness :
  exists st,
    background_update (fun _ s => s) (fun _ _ _ s => macd_series s)
      (fun _ _ _ s => signal_series s) demo_fetches ∅ !! "TCS.NS"
    = Some st
    /\ error st = Some "timed out"
    /\ hist_derived (macd st) (macd_signal st) (macd_hist st).
Proof.
  eexists. split; [vm_compute; reflexivity |].
  split; [reflexivity |].
  apply (proj1 (proj2 (proj2 (macd_hist_is_the_difference_unless_nan
                                (fun _ s => s)
                                (fun _ _ _ s => macd_series s)
                                (fun _ _ _ s => signal_series s))))
           demo_fetches "TCS.NS").
  vm_compute. reflexivity.
Defined.

(** ** Symbols *)

Section SymbolFacts.
Implicit Types (s t : string).

Lemma substring_all t : String.substring 0 (String.length t) t = t.
Proof. induction t as [| c t IH]; simpl; [done | by rewrite IH]. Qed.

Lemma substring_append_suffix s t :
  String.substring (String.length s) (String.length t) (String.append s t)
  = t.
Proof. induction s as [| c s IH]; simpl; [apply substring_all | done]. Qed.

Lemma length_append s t :
  String.length (String.append s t)
  = (String.length s + String.length t)%nat.
Proof. induction s as [| c s IH]; simpl; [done | by rewrite IH]. Qed.

Lemma endswith_append s t : endswith (String.append s t) t = true.
Proof.
  unfold endswith. rewrite length_append.
  replace (String.length t <=? String.length s + String.length t)%nat
    with true by (symmetry; apply Nat.leb_le; lia).
  replace (String.length s + String.length t - String.length t)%nat
    with (String.length s) by lia.
  rewrite substring_append_suffix. apply String.eqb_refl.
Qed.

Lemma ensure_nse_symbol_suffix s : endswith (ensure_nse_symbol s) ".NS" = true.
Proof.
  unfold ensure_nse_symbol.
  destruct (endswith s ".NS") eqn:Hs; simpl; [done |].
  apply endswith_append.
Qed.

Lemma ensure_nse_symbol_fixed s :
  endswith s ".NS" = true -> ensure_nse_symbol s = s.
Proof. intros Hs. unfold ensure_nse_symbol. by rewrite Hs. Qed.

Lemma ensure_nse_symbol_idempotent s :
  ensure_nse_symbol (ensure_nse_symbol s) = ensure_nse_symbol s.
Proof. apply ensure_nse_symbol_fixed, ensure_nse_symbol_suffix. Qed.
End SymbolFacts.

(** C10.  [ensure_nse_symbol s] always ends with ".NS" and applying it
    twice is applying it once.  Every symbol loaded by
    [fetch_stocks_from_db] therefore ends with ".NS", and [get_stock]
    looks up the same key for a symbol and for its normal form: for a
    bare symbol X, a lookup for X and a lookup for X.NS read the same
    entry. *)
Theorem ensure_nse_symbol_normal_form :
  (forall s, endswith (ensure_nse_symbol s) ".NS" = true)
  /\ (forall s, ensure_nse_symbol (ensure_nse_symbol s) = ensure_nse_symbol s)
  /\ (forall db,
         Forall (fun s => endswith s ".NS" = true) (fetch_stocks_from_db db))
  /\ (forall (store : gmap string StockData) s,
         get_stock store (ensure_nse_symbol s) = get_stock store s)
  /\ (forall (store : gmap string StockData) x,
         endswith x ".NS" = false ->
         ensure_nse_symbol x = String.append x ".NS"
         /\ get_stock store x = get_stock store (String.append x ".NS")).
Proof.
  split; [apply ensure_nse_symbol_suffix |].
  split; [apply ensure_nse_symbol_idempotent |].
  assert (Hall : forall l : list string,
             Forall (fun s => endswith s ".NS" = true)
                    (ensure_nse_symbol <$> l)).
  { intros l. apply Forall_fmap, Forall_forall.
    intros s _. apply ensure_nse_symbol_suffix. }
  split.
  { intros [[msg | rows] |]; unfold fetch_stocks_from_db; try apply Hall.
    destruct (ensure_nse_symbol <$> rows) eqn:Hrows; [apply Hall |].
    rewrite <- Hrows. apply Hall. }
  split.
  { intros store s. unfold get_stock.
    by rewrite ensure_nse_symbol_idempotent. }
  intros store x Hx.
  assert (Hens : ensure_nse_symbol x = String.append x ".NS").
  { unfold ensure_nse_symbol. by rewrite Hx. }
  split; [exact Hens |].
  unfold get_stock.
  rewrite (ensure_nse_symbol_fixed (String.append x ".NS"))
    by apply endswith_append.
  by rewrite Hens.
Qed.

Lemma ensure_nse_symbol_normal_form_witness :
  ensure_nse_symbol "TCS" = "TCS.NS"
  /\ get_stock (demo_store (dec 10 10) (dec 12 10)) "TCS"
     = get_stock (demo_store (dec 10 10) (dec 12 10)) "TCS.NS".
Proof.
  apply (proj2 (proj2 (proj2 (proj2 ensure_nse_symbol_normal_form)))
           (demo_store (dec 10 10) (dec 12 10)) "TCS").
  reflexivity.
Defined.

(** ** Further facts about the code at the places where claims fail *)

(** [macd_crossover] gives "-" exactly when neither strict comparison of
    [macd] and [macd_signal] holds: when they are equal, and also when
    one of them is NaN.  Whether previous values exist plays no role. *)
Lemma macd_crossover_none (st : StockData) :
  macd_crossover st = NoCrossover
  <-> (macd st >? macd_signal st)%F = false
      /\ (macd st <? macd_signal st)%F = false.
Proof.
  unfold macd_crossover, classify.
  destruct (prev_macd st <=? prev_signal st)%F,
           (prev_macd st >=? prev_signal st)%F,
           (macd st >? macd_signal st)%F,
           (macd st <? macd_signal st)%F;
    simpl; split; intros; repeat split;
    repeat match goal with H : _ /\ _ |- _ => destruct H end;
    congruence.
Qed.

Lemma zip_with_replicate {A B C : Type} (f : A -> B -> C)
    (a b : nat) (x : A) (y : B) :
  zip_with f (replicate a x) (replicate b y) = replicate (min a b) (f x y).
Proof.
  revert b. induction a as [| a IH]; intros [| b]; simpl; try done.
  by rewrite IH.
Qed.

Lemma rolling_mean_last (w : nat) (s : Series) :
  s <> [] ->
  iloc_last (rolling_mean w s)
  = Some (if (length s - 1 + 1 <? w)%nat then NaN
          else (fsum (take w (drop (length s - 1 + 1 - w) s))
                / of_Z (Z.of_nat w))%F).
Proof.
  intros Hs. unfold rolling_mean.
  rewrite last_fmap_seq; [done |]. by destruct s.
Qed.

(** On a flat series the average gain and the average loss are both 0
    and the RSI is 0/0: [run] reports NaN for every flat history of at
    least 14 samples. *)
Lemma flat_history_rsi_is_nan
    (sym : string) (hist : list Row) (c : Qc) (n : nat) (now : datetime) :
  (14 <= n)%nat ->
  Close <$> hist = replicate n (Fin c) ->
  exists d,
    run sym true true (Returned hist) now = Some (data_ready d)
    /\ d_rsi d = NaN.
Proof.
  intros Hn Hclose.
  assert (Hne : hist <> []).
  { intros ->. destruct n; [lia | discriminate]. }
  destruct (run_nonempty sym hist now Hne)
    as (r & last_row & m & sg & h & Hr & _ & _ & _ & _ & Hrun).
  eexists. split; [exact Hrun |]. cbn [d_rsi].
  enough (r = NaN) as -> by reflexivity.
  rewrite Hclose in Hr. clear Hrun Hclose.
  destruct n as [| k]; [lia |].
  unfold rsi_quotient_series in Hr.
  assert (Hdiff : diff (replicate (S k) (Fin c)) = NaN :: replicate k fzero).
  { cbn [replicate diff]. f_equal.
    change (Fin c :: replicate k (Fin c)) with (replicate (S k) (Fin c)).
    rewrite zip_with_replicate.
    replace (min k (S k)) with k by lia.
    cbn [fsub fneg fadd]. by rewrite Qcplus_opp_r. }
  rewrite Hdiff in Hr.
  assert (Hgain :
    where_ (fun d => (d >? fzero)%F) fzero (NaN :: replicate k fzero)
    = replicate (S k) fzero).
  { unfold where_. rewrite fmap_cons, fmap_replicate. reflexivity. }
  assert (Hloss :
    fneg <$> where_ (fun d => (d <? fzero)%F) fzero (NaN :: replicate k fzero)
    = replicate (S k) (fneg fzero)).
  { unfold where_. rewrite fmap_cons, fmap_replicate.
    by rewrite fmap_cons, fmap_replicate. }
  rewrite Hgain, Hloss in Hr.
  unfold iloc_last in Hr. rewrite fmap_last in Hr.
  destruct (last (zip_with fdiv _ _)) as [q |] eqn:Hq; [| done].
  apply last_zip_with in Hq as (g & l & Hg & Hl & ->);
    [| by rewrite !length_rolling_mean, !length_replicate].
  change (last ?x) with (iloc_last x) in Hg, Hl.
  rewrite rolling_mean_last in Hg, Hl by done.
  rewrite length_replicate in Hg, Hl.
  replace (S k - 1 + 1 <? 14)%nat with false in Hg, Hl
    by (symmetry; apply Nat.ltb_ge; lia).
  rewrite drop_replicate, take_replicate in Hg, Hl.
  replace (min 14 (S k - (S k - 1 + 1 - 14))) with 14%nat in Hg, Hl by lia.
  injection Hg as <-. injection Hl as <-.
  simpl in Hr. injection Hr as <-. reflexivity.
Qed.

(** * Further properties of the code *)

(** ** The store across refresh passes *)

Section StoreFacts.
Implicit Types (store : gmap string StockData) (st : StockData).
Implicit Types (sym : string) (arrivals : list Arrival).

Lemma merge_lookup_congr now sym data store1 store2 :
  store1 !! sym = store2 !! sym ->
  merge now sym data store1 !! sym = merge now sym data store2 !! sym.
Proof.
  intros Heq. unfold merge. destruct data as [s err | d].
  - rewrite <- Heq. destruct (store1 !! sym) as [st |] eqn:H1.
    + by rewrite !lookup_insert_eq.
    + by rewrite H1.
  - rewrite <- Heq. by rewrite !lookup_insert_eq.
Qed.

Lemma merge_all_cons a arrivals store :
  merge_all (a :: arrivals) store = merge_all arrivals (merge_arrival store a).
Proof. reflexivity. Qed.

Lemma merge_all_isolated sym arrivals store1 store2 :
  store1 !! sym = store2 !! sym ->
  merge_all arrivals store1 !! sym
  = merge_all (filter (fun a => arr_symbol a = sym) arrivals) store2 !! sym.
Proof.
  revert store1 store2.
  induction arrivals as [| a rest IH]; intros store1 store2 Heq; [done |].
  rewrite merge_all_cons.
  destruct (decide (arr_symbol a = sym)) as [Ha | Ha].
  - rewrite filter_cons_True by done. rewrite merge_all_cons.
    apply IH. unfold merge_arrival. rewrite Ha.
    by apply merge_lookup_congr.
  - rewrite filter_cons_False by done.
    apply IH. unfold merge_arrival.
    by rewrite merge_lookup_other.
Qed.

Lemma last_result_snoc sym arrivals a acc :
  last_result sym (arrivals ++ [a]) acc
  = if String.eqb (arr_symbol a) sym then Some (arr_result a)
    else last_result sym arrivals acc.
Proof.
  revert acc. induction arrivals as [| b rest IH]; intros acc; simpl;
    [done | apply IH].
Qed.
End StoreFacts.

(** X1.  Symbols do not interfere: what any number of passes leave in
    the entry of a symbol is what the results for that symbol alone
    would have left.  A failure, or a success, for another symbol
    changes nothing in it. *)
Theorem merge_all_depends_on_own_results
    (sym : string) (arrivals : list Arrival)
    (store : gmap string StockData) :
  merge_all arrivals store !! sym
  = merge_all (filter (fun a => arr_symbol a = sym) arrivals) store !! sym.
Proof. by apply merge_all_isolated. Qed.

(** X2.  An entry exists after the passes exactly when it existed before
    or some result for the symbol succeeded: entries are never removed,
    and a symbol whose fetches all failed gets no entry. *)
Theorem entry_exists_iff_known_or_succeeded
    (sym : string) (arrivals : list Arrival)
    (store : gmap string StockData) :
  is_Some (merge_all arrivals store !! sym)
  <-> is_Some (store !! sym) \/ is_Some (last_success sym arrivals None).
Proof.
  induction arrivals as [| a rest IH] using rev_ind.
  - simpl. split; [by left | intros [H | [x H]]; [done | discriminate]].
  - rewrite merge_all_snoc, last_success_snoc. unfold merge_arrival.
    destruct a as [asym ares anow]; cbn [arr_symbol arr_result arr_now].
    destruct (decide (asym = sym)) as [-> | Hne].
    + rewrite String.eqb_refl.
      destruct ares as [s err | d].
      * rewrite <- IH. unfold merge.
        destruct (merge_all rest store !! sym) as [st |] eqn:Hst.
        -- rewrite lookup_insert_eq. split; eauto.
        -- by rewrite Hst.
      * unfold merge. rewrite lookup_insert_eq. split; eauto.
    + rewrite merge_lookup_other by done.
      destruct ares as [s err | d]; [exact IH |].
      destruct (String.eqb_spec asym sym) as [Heq | _]; [done | exact IH].
Qed.

Lemma entry_exists_iff_known_or_succeeded_witness :
  is_Some
    (merge_all
       [mkArrival "INFY.NS" (ErrorDict "INFY.NS" "No data returned") 50;
        mkArrival "TCS.NS"
          (DataDict (demo_dict (dec 3400 1) (dec 7 10) (dec 9 10))) 55]
       ∅ !! "TCS.NS").
Proof.
  apply (proj2 (entry_exists_iff_known_or_succeeded "TCS.NS"
                  [mkArrival "INFY.NS"
                     (ErrorDict "INFY.NS" "No data returned") 50;
                   mkArrival "TCS.NS"
                     (DataDict (demo_dict (dec 3400 1) (dec 7 10) (dec 9 10)))
                     55]
                  ∅)).
  right. simpl. eauto.
Defined.

(** X3.  The key of an entry is the symbol it carries: this holds in the
    empty store and every merge keeps it, so the [symbol] that [to_dict]
    prints is the key under which the entry is found. *)
Theorem store_key_is_entry_symbol
    (arrivals : list Arrival) (store : gmap string StockData) :
  map_Forall (fun k st => symbol st = k) store ->
  map_Forall (fun k st => symbol st = k) (merge_all arrivals store).
Proof.
  revert store. induction arrivals as [| a rest IH]; intros store Hstore;
    [done |].
  rewrite merge_all_cons. apply IH.
  unfold merge_arrival, merge.
  destruct (arr_result a) as [s err | d].
  - destruct (store !! arr_symbol a) as [st |] eqn:Hst; [| done].
    apply map_Forall_insert_2; [| done]. simpl. exact (Hstore _ _ Hst).
  - apply map_Forall_insert_2; [| done]. simpl.
    destruct (store !! arr_symbol a) as [st |] eqn:Hst; [| done].
    exact (Hstore _ _ Hst).
Qed.

Lemma store_key_is_entry_symbol_witness :
  map_Forall (fun k st => symbol st = k)
    (merge_all
       [mkArrival "INFY.NS"
          (DataDict (demo_dict (dec 1500 1) (dec 7 10) (dec 9 10))) 50]
       (demo_store (dec 10 10) (dec 12 10))).
Proof.
  apply (store_key_is_entry_symbol
           [mkArrival "INFY.NS"
              (DataDict (demo_dict (dec 1500 1) (dec 7 10) (dec 9 10))) 50]
           (demo_store (dec 10 10) (dec 12 10))).
  apply map_Forall_singleton. reflexivity.
Defined.

(** X4.  Last known good: once a result for a symbol succeeded, the
    entry shows the price, rsi, macd, signal, histogram, volume and
    timestamp of the most recent success, however many failures for the
    symbol, or results for other symbols, arrived after it. *)
Theorem entry_shows_last_success
    (sym : string) (arrivals : list Arrival)
    (store : gmap string StockData) (dl : StockDict) :
  last_success sym arrivals None = Some dl ->
  exists st,
    merge_all arrivals store !! sym = Some st
    /\ price st = d_price dl /\ rsi st = d_rsi dl
    /\ macd st = d_macd dl /\ macd_signal st = d_macd_signal dl
    /\ macd_hist st = d_macd_hist dl
    /\ volume st = d_volume dl /\ timestamp st = d_timestamp dl.
Proof.
  revert dl. induction arrivals as [| a rest IH] using rev_ind; intros dl.
  - discriminate.
  - rewrite last_success_snoc, merge_all_snoc. unfold merge_arrival.
    destruct a as [asym ares anow]; cbn [arr_symbol arr_result arr_now].
    destruct ares as [s err | d].
    + intros Hl. destruct (IH _ Hl) as (st & Hst & Hfields).
      destruct (decide (asym = sym)) as [-> | Hne].
      * rewrite (merge_lookup_existing _ _ _ _ _ Hst).
        eexists; split; [reflexivity | exact Hfields].
      * rewrite merge_lookup_other by done. eauto.
    + destruct (String.eqb_spec asym sym) as [-> | Hne].
      * intros [= <-].
        destruct (merge_all rest store !! sym) as [st |] eqn:Hst.
        -- rewrite (merge_lookup_existing _ _ _ _ _ Hst).
           eexists; split; [reflexivity | by repeat split].
        -- rewrite (merge_lookup_fresh_data _ _ _ _ Hst).
           eexists; split; [reflexivity | by repeat split].
      * intros Hl. destruct (IH _ Hl) as (st & Hst & Hfields).
        rewrite merge_lookup_other by done. eauto.
Qed.

Lemma entry_shows_last_success_witness :
  exists st,
    merge_all
      [mkArrival "TCS.NS"
         (DataDict (demo_dict (dec 3400 1) (dec 7 10) (dec 9 10))) 50;
       mkArrival "TCS.NS" (ErrorDict "TCS.NS" "No data returned") 55]
      ∅ !! "TCS.NS" = Some st
    /\ price st = dec 3400 1 /\ rsi st = dec 55 1
    /\ macd st = dec 7 10 /\ macd_signal st = dec 9 10
    /\ macd_hist st = (dec 7 10 - dec 9 10)%F
    /\ volume st = 1000 /\ timestamp st = 60.
Proof.
  apply (entry_shows_last_success "TCS.NS"
           [mkArrival "TCS.NS"
              (DataDict (demo_dict (dec 3400 1) (dec 7 10) (dec 9 10))) 50;
            mkArrival "TCS.NS" (ErrorDict "TCS.NS" "No data returned") 55]
           ∅ (demo_dict (dec 3400 1) (dec 7 10) (dec 9 10))).
  reflexivity.
Defined.

(** X5.  The error of an entry tells how the most recent attempt for the
    symbol ended: it is the message of that attempt when it failed and
    it is absent when it succeeded; with no attempt for the symbol the
    entry is the one the store started with. *)
Theorem error_reflects_latest_result
    (sym : string) (arrivals : list Arrival)
    (store : gmap string StockData) (st : StockData) :
  merge_all arrivals store !! sym = Some st ->
  match last_result sym arrivals None with
  | Some (ErrorDict _ err) => error st = Some err
  | Some (DataDict _) => error st = None
  | None => store !! sym = Some st
  end.
Proof.
  revert st. induction arrivals as [| a rest IH] using rev_ind; intros st.
  - by simpl.
  - rewrite last_result_snoc, merge_all_snoc. unfold merge_arrival.
    destruct a as [asym ares anow]; cbn [arr_symbol arr_result arr_now].
    destruct (String.eqb_spec asym sym) as [-> | Hne].
    + destruct ares as [s err | d].
      * unfold merge.
        destruct (merge_all rest store !! sym) as [st0 |] eqn:Hst.
        -- rewrite lookup_insert_eq. by intros [= <-].
        -- rewrite Hst. discriminate.
      * unfold merge. rewrite lookup_insert_eq. by intros [= <-].
    + rewrite merge_lookup_other by done. apply IH.
Qed.

Lemma error_reflects_latest_result_witness :
  error
    {| symbol := "TCS.NS"; price := dec 3400 1; rsi := dec 48 1;
       macd := dec 10 10; macd_signal := dec 12 10;
       macd_hist := (dec 10 10 - dec 12 10)%F;
       volume := 900; timestamp := 30;
       prev_macd := fzero; prev_signal := fzero;
       error := Some "timed out" |} = Some "timed out".
Proof.
  apply (error_reflects_latest_result "TCS.NS"
           [mkArrival "TCS.NS" (ErrorDict "TCS.NS" "timed out") 55]
           (demo_store (dec 10 10) (dec 12 10))).
  reflexivity.
Defined.

(** ** The labels *)

Lemma fle_not_gt (x y : pyfloat) : (x <=? y)%F = true -> (x >? y)%F = false.
Proof.
  unfold fle, fgt, flt. rewrite (fcompare_antisym x y).
  by destruct (fcompare x y) as [[] |].
Qed.

Lemma fle_fin (a b : Qc) : (Fin a <=? Fin b)%F = true <-> (a <= b)%Qc.
Proof.
  unfold fle; simpl. rewrite Qcle_alt.
  destruct (a ?= b)%Qc; split; intros H; congruence.
Qed.

Lemma flt_fin (a b : Qc) : (Fin a <? Fin b)%F = true <-> (a < b)%Qc.
Proof.
  unfold flt; simpl. rewrite Qclt_alt.
  destruct (a ?= b)%Qc; split; intros H; congruence.
Qed.

(** X6.  The arrow of the label tells the side of the signal line:
    the label is Bullish or Above exactly when [macd > macd_signal], and
    Bearish or Below exactly when [macd < macd_signal], whatever the
    previous values are. *)
Theorem crossover_arrow_matches_side (st : StockData) :
  ((macd st >? macd_signal st)%F = true
   <-> macd_crossover st = Bullish \/ macd_crossover st = Above)
  /\ ((macd st <? macd_signal st)%F = true
      <-> macd_crossover st = Bearish \/ macd_crossover st = Below).
Proof.
  unfold macd_crossover, classify.
  destruct (macd st <? macd_signal st)%F eqn:Hlt.
  - apply flt_asym in Hlt. unfold fgt. rewrite Hlt.
    destruct (prev_macd st <=? prev_signal st)%F,
             (prev_macd st >=? prev_signal st)%F;
      simpl; split; split; intros; try tauto; try discriminate;
      (destruct H; discriminate).
  - destruct (prev_macd st <=? prev_signal st)%F,
             (prev_macd st >=? prev_signal st)%F,
             (macd st >? macd_signal st)%F;
      simpl; split; split; intros; try tauto; try discriminate;
      (destruct H; discriminate).
Qed.

Lemma crossover_arrow_matches_side_witness :
  macd_crossover (demo_entry (dec 13 10) (dec 11 10)) = Bullish
  \/ macd_crossover (demo_entry (dec 13 10) (dec 11 10)) = Above.
Proof.
  apply (proj1 (proj1 (crossover_arrow_matches_side
                         (demo_entry (dec 13 10) (dec 11 10))))).
  reflexivity.
Defined.

(** X7.  Merging two successful results with the same macd and signal
    one after the other, as a manual refresh right after a background
    pass does while the history has not changed, makes the previous
    values equal to the current ones, and the label can then be neither
    Bullish nor Bearish: a crossover reported after the first merge is
    gone after the second. *)
Theorem repeated_merge_hides_crossover
    (now1 now2 : datetime) (sym : string) (d1 d2 : StockDict)
    (store : gmap string StockData) :
  d_macd d2 = d_macd d1 ->
  d_macd_signal d2 = d_macd_signal d1 ->
  exists st,
    merge now2 sym (DataDict d2) (merge now1 sym (DataDict d1) store) !! sym
    = Some st
    /\ prev_macd st = macd st
    /\ prev_signal st = macd_signal st
    /\ macd_crossover st <> Bullish
    /\ macd_crossover st <> Bearish.
Proof.
  intros Hm2 Hs2.
  assert (H1 : exists st1,
             merge now1 sym (DataDict d1) store !! sym = Some st1
             /\ macd st1 = d_macd d1 /\ macd_signal st1 = d_macd_signal d1).
  { unfold merge. rewrite lookup_insert_eq. eexists; split; [done |].
    by simpl. }
  destruct H1 as (st1 & Hst1 & Hm & Hs).
  rewrite (merge_lookup_existing _ _ _ _ _ Hst1).
  eexists; split; [reflexivity |]. simpl.
  split; [by rewrite Hm |]. split; [by rewrite Hs |].
  unfold macd_crossover, classify; simpl. rewrite Hm, Hs, Hm2, Hs2.
  destruct (d_macd d1 <=? d_macd_signal d1)%F eqn:Hle.
  - rewrite (fle_not_gt _ _ Hle). simpl.
    unfold fge.
    destruct (d_macd_signal d1 <=? d_macd d1)%F eqn:Hge.
    + apply fle_not_gt in Hge. unfold fgt in Hge. rewrite Hge. simpl.
      unfold fgt.
      destruct (d_macd_signal d1 <? d_macd d1)%F; by split.
    + simpl. unfold fgt.
      destruct (d_macd_signal d1 <? d_macd d1)%F,
               (d_macd d1 <? d_macd_signal d1)%F; by split.
  - simpl. unfold fge.
    destruct (d_macd_signal d1 <=? d_macd d1)%F eqn:Hge.
    + apply fle_not_gt in Hge. unfold fgt in Hge. rewrite Hge. simpl.
      destruct (d_macd d1 >? d_macd_signal d1)%F; by split.
    + simpl.
      destruct (d_macd d1 >? d_macd_signal d1)%F,
               (d_macd d1 <? d_macd_signal d1)%F; by split.
Qed.

Lemma repeated_merge_hides_crossover_witness :
  exists st,
    merge 71 "TCS.NS"
      (DataDict (demo_dict (dec 3501 1) (dec 13 10) (dec 11 10)))
      (merge 70 "TCS.NS"
         (DataDict (demo_dict (dec 3500 1) (dec 13 10) (dec 11 10)))
         (demo_store (dec 10 10) (dec 12 10))) !! "TCS.NS"
    = Some st
    /\ prev_macd st = macd st
    /\ prev_signal st = macd_signal st
    /\ macd_crossover st <> Bullish
    /\ macd_crossover st <> Bearish.
Proof.
  apply (repeated_merge_hides_crossover 70 71 "TCS.NS"
           (demo_dict (dec 3500 1) (dec 13 10) (dec 11 10))
           (demo_dict (dec 3501 1) (dec 13 10) (dec 11 10))
           (demo_store (dec 10 10) (dec 12 10)));
    reflexivity.
Defined.

(** X8.  [rsi_signal] is Overbought exactly when [rsi >= 70], Oversold
    exactly when [rsi <= 30] (the two cannot both hold, so the order of
    the tests does not matter) and Neutral otherwise, in particular for
    a NaN; an entry fresh from [__init__] has rsi 0.0 and reads
    Oversold. *)
Theorem rsi_signal_thresholds (st : StockData) :
  (rsi_signal st = Overbought <-> (rsi st >=? of_Z 70)%F = true)
  /\ (rsi_signal st = Oversold <-> (rsi st <=? of_Z 30)%F = true)
  /\ (rsi_signal st = Neutral
      <-> (rsi st >=? of_Z 70)%F = false /\ (rsi st <=? of_Z 30)%F = false)
  /\ (is_nan (rsi st) = true -> rsi_signal st = Neutral)
  /\ (forall sym now, rsi_signal (StockData_init sym now) = Oversold).
Proof.
  assert (Hexcl : (rsi st <=? of_Z 30)%F = true ->
                  (rsi st >=? of_Z 70)%F = false).
  { unfold fge. destruct (rsi st) as [q | [] |];
      [| intros _; reflexivity | intros H; discriminate H
       | intros H; discriminate H].
    intros Hle. destruct (of_Z 70 <=? Fin q)%F eqn:Hge; [| done].
    unfold of_Z in Hle, Hge.
    apply fle_fin in Hle, Hge.
    pose proof (Qcle_trans _ _ _ Hge Hle) as H.
    apply Qcle_alt in H. exfalso. apply H. reflexivity. }
  unfold rsi_signal.
  split; [| split; [| split; [| split]]].
  - destruct (rsi st >=? of_Z 70)%F, (rsi st <=? of_Z 30)%F;
      split; intros; congruence.
  - destruct (rsi st <=? of_Z 30)%F eqn:Hle.
    + rewrite (Hexcl eq_refl). by split.
    + destruct (rsi st >=? of_Z 70)%F; split; intros; congruence.
  - destruct (rsi st >=? of_Z 70)%F, (rsi st <=? of_Z 30)%F;
      split; intros; try tauto; try congruence; destruct H; congruence.
  - destruct (rsi st); [done | done |]. reflexivity.
  - intros sym now. reflexivity.
Qed.

Lemma rsi_signal_thresholds_witness :
  rsi_signal (demo_entry (dec 13 10) (dec 11 10)) = Neutral.
Proof.
  apply (proj1 (proj2 (proj2 (rsi_signal_thresholds
                                (demo_entry (dec 13 10) (dec 11 10)))))).
  split; reflexivity.
Defined.

(** ** The tracked symbols and the single-symbol read *)

(** X9.  [fetch_stocks_from_db] never returns an empty list: without a
    connection, on an exception and on an empty query result it returns
    the five default symbols, which are already in normal form (so the
    variant of stock_analyzer.py, which returns them unmapped on an
    exception, gives the same list); otherwise it returns the rows, each
    normalised, in the order and number the query gave them. *)
Theorem fetch_stocks_from_db_fallback :
  (forall db, fetch_stocks_from_db db <> [])
  /\ fetch_stocks_from_db None = DEFAULT_STOCKS
  /\ (forall msg, fetch_stocks_from_db (Some (Raised msg)) = DEFAULT_STOCKS)
  /\ fetch_stocks_from_db (Some (Returned [])) = DEFAULT_STOCKS
  /\ (forall rows,
         rows <> [] ->
         fetch_stocks_from_db (Some (Returned rows))
         = ensure_nse_symbol <$> rows)
  /\ (forall db, fetch_stocks_from_db_qt db = fetch_stocks_from_db db).
Proof.
  assert (Hdef : ensure_nse_symbol <$> DEFAULT_STOCKS = DEFAULT_STOCKS)
    by reflexivity.
  split; [| split; [| split; [| split; [| split]]]]; try reflexivity.
  - intros [[msg | rows] |]; unfold fetch_stocks_from_db;
      rewrite ?Hdef; try discriminate.
    destruct rows as [| r rest]; [discriminate |].
    rewrite fmap_cons. discriminate.
  - intros rows Hrows. unfold fetch_stocks_from_db.
    destruct rows as [| r rest]; [done |]. by rewrite fmap_cons.
  - intros [[msg | rows] |]; reflexivity.
Qed.

Lemma fetch_stocks_from_db_fallback_witness :
  fetch_stocks_from_db (Some (Returned ["TCS"; "INFY.NS"; "TCS.NS"]))
  = ensure_nse_symbol <$> ["TCS"; "INFY.NS"; "TCS.NS"].
Proof.
  apply (proj1 (proj2 (proj2 (proj2 (proj2 fetch_stocks_from_db_fallback))))).
  discriminate.
Defined.

(** X10.  Insert and read back: after a successful merge under the
    normalised symbol, [get_stock] finds the entry by the bare or the
    suffixed name and shows the merged metrics with no error; for a
    symbol the store does not hold it answers with the 404 message that
    names the normalised symbol, also right after a failed fetch for
    that symbol, which leaves no trace. *)
Theorem get_stock_after_merge
    (now : datetime) (s : string) (d : StockDict)
    (store : gmap string StockData) :
  (exists st,
      get_stock (merge now (ensure_nse_symbol s) (DataDict d) store) s
      = inl st
      /\ get_stock (merge now (ensure_nse_symbol s) (DataDict d) store)
           (ensure_nse_symbol s) = inl st
      /\ symbol st = match store !! ensure_nse_symbol s with
                     | Some old => symbol old
                     | None => ensure_nse_symbol s
                     end
      /\ price st = d_price d /\ rsi st = d_rsi d
      /\ macd st = d_macd d /\ macd_signal st = d_macd_signal d
      /\ macd_hist st = d_macd_hist d
      /\ volume st = d_volume d /\ timestamp st = d_timestamp d
      /\ error st = None)
  /\ (store !! ensure_nse_symbol s = None ->
      forall sym err,
        get_stock (merge now (ensure_nse_symbol s) (ErrorDict sym err) store) s
        = inr (String.append "Stock "
                 (String.append (ensure_nse_symbol s) " not found"))
        /\ get_stock store s
           = inr (String.append "Stock "
                    (String.append (ensure_nse_symbol s) " not found"))).
Proof.
  split.
  - unfold get_stock. rewrite ensure_nse_symbol_idempotent.
    unfold merge. rewrite lookup_insert_eq.
    eexists; split; [reflexivity |]. split; [reflexivity |].
    simpl. by destruct (store !! ensure_nse_symbol s).
  - intros Hnone sym err.
    rewrite (merge_lookup_fresh_error _ _ _ _ _ Hnone).
    unfold get_stock. by rewrite Hnone.
Qed.

Lemma get_stock_after_merge_witness :
  get_stock (merge 70 "TCS.NS" (ErrorDict "TCS.NS" "timed out") ∅) "TCS"
  = inr "Stock TCS.NS not found"
  /\ get_stock ∅ "TCS" = inr "Stock TCS.NS not found".
Proof.
  apply (proj2 (get_stock_after_merge 70 "TCS"
                  (demo_dict (dec 3400 1) (dec 7 10) (dec 9 10)) ∅)
           (lookup_empty _) "TCS.NS" "timed out").
Defined.

(** ** The RSI of [StockFetcher.run] *)

Section RsiRange.
Implicit Types (g l q : Qc).

Lemma rsi_value_range_Q (g l : Q) :
  (0 <= g -> 0 < l ->
   0 <= 100 - 100 / (1 + g / l) /\ 100 - 100 / (1 + g / l) <= 100)%Q.
Proof.
  intros Hg Hl.
  assert (Hx : (0 <= g / l)%Q).
  { apply Qle_shift_div_l; [done | lra]. }
  set (x := (g / l)%Q) in *.
  assert (Hy : (0 < 1 + x)%Q) by lra.
  assert (Ht0 : (0 <= 100 / (1 + x))%Q).
  { apply Qle_shift_div_l; [done | lra]. }
  assert (Ht1 : (100 / (1 + x) <= 100)%Q).
  { apply Qle_shift_div_r; [done | lra]. }
  split; lra.
Qed.

Lemma this_Qcdiv (x y : Qc) : (this (x / y)%Qc == this x / this y)%Q.
Proof.
  unfold Qcdiv, Qcmult, Qcinv, Q2Qc; cbn [this].
  by rewrite !Qred_correct.
Qed.

Lemma this_Qcplus (x y : Qc) : (this (x + y)%Qc == this x + this y)%Q.
Proof. unfold Qcplus, Q2Qc; cbn [this]. by rewrite Qred_correct. Qed.

Lemma this_Qcopp (x : Qc) : (this (- x)%Qc == - this x)%Q.
Proof. unfold Qcopp, Q2Qc; cbn [this]. by rewrite Qred_correct. Qed.

Lemma Qc_is_zero_spec q : Qc_is_zero q = true <-> q = 0%Qc.
Proof.
  unfold Qc_is_zero. rewrite Qceq_alt.
  destruct (q ?= 0)%Qc; split; congruence.
Qed.

Lemma Qc_is_neg_nonneg q : (0 <= q)%Qc -> Qc_is_neg q = false.
Proof.
  intros Hq. unfold Qc_is_neg.
  destruct (q ?= 0)%Qc eqn:Hc; try reflexivity.
  apply Qclt_alt in Hc. by apply Qcle_not_lt in Hq.
Qed.

Lemma rsi_formula_in_range g l :
  (0 <= g)%Qc -> (0 <= l)%Qc ->
  rsi_in_range (of_Z 100 - of_Z 100 / (fone + Fin g / Fin l))%F.
Proof.
  intros Hg Hl. unfold rsi_in_range, Qc_between.
  cbn [fdiv]. destruct (Qc_is_zero l) eqn:Hzl.
  - destruct (Qc_is_zero g) eqn:Hzg; [by left |].
    rewrite (Qc_is_neg_nonneg g Hg). right.
    eexists. split; [reflexivity |]. split; vm_compute; discriminate.
  - right.
    assert (Hg' : (0 <= this g)%Q) by exact Hg.
    assert (Hlpos : (0 < this l)%Q).
    { apply Qle_lteq in Hl as [Hlt | Heq]; [exact Hlt |].
      assert (l = 0%Qc) by (apply Qc_is_canon; symmetry; exact Heq).
      apply Qc_is_zero_spec in H. congruence. }
    pose proof (rsi_value_range_Q (this g) (this l) Hg Hlpos) as [H0 H100].
    assert (Hden : Qc_is_zero (1 + g / l)%Qc = false).
    { destruct (Qc_is_zero (1 + g / l)%Qc) eqn:Hz; [| done].
      apply Qc_is_zero_spec in Hz.
      assert (Hq : (this (1 + g / l)%Qc == 0)%Q) by by rewrite Hz.
      rewrite this_Qcplus, this_Qcdiv in Hq.
      assert (Hx : (0 <= this g / this l)%Q).
      { apply Qle_shift_div_l; [done | lra]. }
      change (this 1%Qc) with 1%Q in Hq.
      set (x := (this g / this l)%Q) in *. lra. }
    cbn [fone fadd]. cbn [of_Z fdiv]. rewrite Hden.
    cbn [fsub fneg fadd].
    eexists. split; [reflexivity |].
    unfold Qcle. rewrite this_Qcplus, this_Qcopp, this_Qcdiv, this_Qcplus,
      this_Qcdiv.
    change (this (Q2Qc (inject_Z 100))) with 100%Q.
    change (this 1%Qc) with 1%Q. change (this 0%Qc) with 0%Q.
    change (this (Qc_of_Z 100)) with 100%Q.
    set (t := (100 / (1 + this g / this l))%Q) in *.
    split; lra.
Qed.

Lemma fold_left_fadd_nonneg (l : Series) (acc : pyfloat) :
  nonneg_fin acc -> Forall nonneg_fin l -> nonneg_fin (fold_left fadd l acc).
Proof.
  revert acc. induction l as [| x l IH]; intros acc Hacc Hl; [done |].
  apply Forall_cons in Hl as [Hx Hl]. simpl. apply IH; [| done].
  destruct Hacc as (a & -> & Ha), Hx as (b & -> & Hb).
  exists (a + b)%Qc. split; [done |].
  replace 0%Qc with (0 + 0)%Qc by ring. by apply Qcplus_le_compat.
Qed.

Lemma window_mean_nonneg (l : Series) :
  Forall nonneg_fin l -> nonneg_fin (fsum l / of_Z (Z.of_nat 14))%F.
Proof.
  intros Hl.
  destruct (fold_left_fadd_nonneg l fzero) as (s & Hs & Hpos); [| done |].
  { exists 0%Qc. split; [done | apply Qcle_refl]. }
  unfold fsum. rewrite Hs.
  eexists. split; [reflexivity |].
  unfold Qcle. rewrite this_Qcdiv.
  apply Qle_shift_div_l; [reflexivity |].
  assert (H : (0 <= this s)%Q) by exact Hpos.
  change (this 0%Qc) with 0%Q. lra.
Qed.

Lemma diff_fin_elements qs :
  Forall (fun x => x = NaN \/ exists q, x = Fin q) (diff (Fin <$> qs)).
Proof.
  destruct qs as [| q0 rest]; [constructor |].
  rewrite fmap_cons. cbn [diff]. constructor; [by left |].
  rewrite <- fmap_cons. generalize (q0 :: rest). intros l.
  revert l. induction rest as [| a rest IH]; intros [| b l];
    rewrite ?fmap_cons; cbn [zip_with]; try constructor.
  - right. by eexists.
  - apply IH.
Qed.

Lemma gain_nonneg (x : pyfloat) :
  (x = NaN \/ exists q, x = Fin q) ->
  nonneg_fin (if (x >? fzero)%F then x else fzero).
Proof.
  intros [-> | [q ->]].
  - exists 0%Qc. split; [done | apply Qcle_refl].
  - destruct (Fin q >? fzero)%F eqn:Hgt.
    + exists q. split; [done |]. unfold fgt in Hgt.
      apply flt_fin in Hgt. by apply Qclt_le_weak.
    + exists 0%Qc. split; [done | apply Qcle_refl].
Qed.

Lemma loss_nonneg (x : pyfloat) :
  (x = NaN \/ exists q, x = Fin q) ->
  nonneg_fin (fneg (if (x <? fzero)%F then x else fzero)).
Proof.
  intros [-> | [q ->]].
  - exists (- 0)%Qc. split; [done | apply Qcle_refl].
  - destruct (Fin q <? fzero)%F eqn:Hlt.
    + exists (- q)%Qc. split; [done |].
      apply flt_fin in Hlt. apply Qclt_le_weak in Hlt.
      apply Qcopp_le_compat in Hlt. exact Hlt.
    + exists (- 0)%Qc. split; [done | apply Qcle_refl].
Qed.

Lemma gains_nonneg qs :
  Forall nonneg_fin
    (where_ (fun d => (d >? fzero)%F) fzero (diff (Fin <$> qs))).
Proof.
  unfold where_. apply Forall_fmap.
  eapply Forall_impl; [apply diff_fin_elements |].
  intros x Hx. by apply gain_nonneg.
Qed.

Lemma losses_nonneg qs :
  Forall nonneg_fin
    (fneg <$> where_ (fun d => (d <? fzero)%F) fzero (diff (Fin <$> qs))).
Proof.
  unfold where_. rewrite <- list_fmap_compose. apply Forall_fmap.
  eapply Forall_impl; [apply diff_fin_elements |].
  intros x Hx. by apply loss_nonneg.
Qed.

(** The last value of the quotient Series, from the last averages. *)
Lemma rsi_quotient_last (close : Series) (r : pyfloat) :
  close <> [] ->
  iloc_last (rsi_quotient_series close) = Some r ->
  let n := length close in
  let gains := where_ (fun d => (d >? fzero)%F) fzero (diff close) in
  let losses :=
    fneg <$> where_ (fun d => (d <? fzero)%F) fzero (diff close) in
  if (n - 1 + 1 <? 14)%nat then r = NaN
  else r = (of_Z 100
            / (fone
               + (fsum (take 14 (drop (n - 1 + 1 - 14) gains))
                  / of_Z (Z.of_nat 14))
                 / (fsum (take 14 (drop (n - 1 + 1 - 14) losses))
                    / of_Z (Z.of_nat 14))))%F.
Proof.
  intros Hne Hr. cbv zeta.
  unfold rsi_quotient_series, iloc_last in Hr. rewrite fmap_last in Hr.
  destruct (last (zip_with fdiv _ _)) as [q |] eqn:Hq; [| done].
  apply last_zip_with in Hq as (g & l & Hg & Hl & ->);
    [| by rewrite !length_rolling_mean, length_fmap, !length_where_].
  change (last ?x) with (iloc_last x) in Hg, Hl.
  assert (Hd : diff close <> []) by (by destruct close).
  rewrite rolling_mean_last in Hg, Hl
    by (unfold where_; by destruct (diff close)).
  rewrite length_where_, length_diff in Hg.
  rewrite length_fmap, length_where_, length_diff in Hl.
  injection Hr as <-. injection Hg as <-. injection Hl as <-.
  destruct (length close - 1 + 1 <? 14)%nat; reflexivity.
Qed.
End RsiRange.

(** X13.  For every history of finite closes that is not empty, the RSI
    that [run] reports is NaN or a number between 0 and 100. *)
Theorem rsi_is_nan_or_within_0_100
    (sym : string) (hist : list Row) (qs : list Qc) (now : datetime) :
  hist <> [] ->
  Close <$> hist = Fin <$> qs ->
  exists d,
    run sym true true (Returned hist) now = Some (data_ready d)
    /\ rsi_in_range (d_rsi d).
Proof.
  intros Hne Hclose.
  destruct (run_nonempty sym hist now Hne)
    as (r & last_row & m & sg & h & Hr & _ & _ & _ & _ & Hrun).
  eexists. split; [exact Hrun |]. cbn [d_rsi].
  assert (Hcne : Close <$> hist <> []) by (by destruct hist).
  pose proof (rsi_quotient_last _ _ Hcne Hr) as Hlast. cbv zeta in Hlast.
  destruct (length (Close <$> hist) - 1 + 1 <? 14)%nat.
  - subst r. by left.
  - subst r. rewrite Hclose.
    destruct (window_mean_nonneg
                (take 14 (drop (length (Fin <$> qs) - 1 + 1 - 14)
                   (where_ (fun d => (d >? fzero)%F) fzero
                      (diff (Fin <$> qs))))))
      as (g & Hg & Hgpos).
    { apply Forall_take, Forall_drop, gains_nonneg. }
    destruct (window_mean_nonneg
                (take 14 (drop (length (Fin <$> qs) - 1 + 1 - 14)
                   (fneg <$> where_ (fun d => (d <? fzero)%F) fzero
                      (diff (Fin <$> qs))))))
      as (l & Hl & Hlpos).
    { apply Forall_take, Forall_drop, losses_nonneg. }
    rewrite Hg, Hl. by apply rsi_formula_in_range.
Qed.

Lemma rsi_is_nan_or_within_0_100_witness :
  exists d,
    run "TCS.NS" true true (Returned demo_rising_history) 60
    = Some (data_ready d)
    /\ rsi_in_range (d_rsi d).
Proof.
  apply (rsi_is_nan_or_within_0_100 "TCS.NS" demo_rising_history
           demo_rising_closes 60).
  - discriminate.
  - reflexivity.
Defined.

(** X14.  With fewer than 14 samples the 14-sample windows are not
    filled and [run] reports a NaN RSI, whatever the closes are. *)
Theorem rsi_is_nan_below_14_samples
    (sym : string) (hist : list Row) (now : datetime) :
  hist <> [] ->
  (length hist < 14)%nat ->
  exists d,
    run sym true true (Returned hist) now = Some (data_ready d)
    /\ d_rsi d = NaN.
Proof.
  intros Hne Hlen.
  destruct (run_nonempty sym hist now Hne)
    as (r & last_row & m & sg & h & Hr & _ & _ & _ & _ & Hrun).
  eexists. split; [exact Hrun |]. cbn [d_rsi].
  assert (Hcne : Close <$> hist <> []) by (by destruct hist).
  pose proof (rsi_quotient_last _ _ Hcne Hr) as Hlast. cbv zeta in Hlast.
  rewrite length_fmap in Hlast.
  replace (length hist - 1 + 1 <? 14)%nat with true in Hlast
    by (symmetry; apply Nat.ltb_lt; destruct hist; simpl in *; [done | lia]).
  by subst r.
Qed.



Lemma rsi_is_nan_below_14_samples_witness :
  exists d,
    run "TCS.NS" true true (Returned demo_short_history) 60
    = Some (data_ready d)
    /\ d_rsi d = NaN.
Proof.
  apply (rsi_is_nan_below_14_samples "TCS.NS" demo_short_history 60).
  - discriminate.
  - simpl. lia.
Defined.

Section MonotoneSeries.
Implicit Types (qs ds : list Qc).

Lemma diff_fin qs :
  qs <> [] -> diff (Fin <$> qs) = NaN :: (Fin <$> deltas qs).
Proof.
  destruct qs as [| q0 rest]; [done |]. intros _.
  rewrite fmap_cons. cbn [diff]. f_equal.
  rewrite <- fmap_cons. unfold deltas. cbn [tail].
  generalize (q0 :: rest). intros l. revert l.
  induction rest as [| a rest IH]; intros [| b l]; try reflexivity.
  rewrite !fmap_cons. cbn [zip_with]. rewrite fmap_cons. f_equal.
  apply IH.
Qed.

Lemma length_deltas qs : length (deltas qs) = (length qs - 1)%nat.
Proof.
  unfold deltas. rewrite length_zip_with.
  destruct qs; simpl; lia.
Qed.

Lemma deltas_positive qs :
  (forall i a b, qs !! i = Some a -> qs !! S i = Some b -> (a < b)%Qc) ->
  Forall (fun d => (0 < d)%Qc) (deltas qs).
Proof.
  intros Hinc. apply Forall_lookup. intros i d Hd.
  unfold deltas in Hd. rewrite lookup_zip_with in Hd.
  rewrite lookup_tail in Hd.
  destruct (qs !! S i) as [b |] eqn:Hb; [| done].
  destruct (qs !! i) as [a |] eqn:Ha; [| done].
  simpl in Hd. injection Hd as <-.
  apply (proj1 (Qclt_minus_iff a b)). by apply (Hinc i).
Qed.

Lemma deltas_negative qs :
  (forall i a b, qs !! i = Some a -> qs !! S i = Some b -> (b < a)%Qc) ->
  Forall (fun d => (d < 0)%Qc) (deltas qs).
Proof.
  intros Hdec. apply Forall_lookup. intros i d Hd.
  unfold deltas in Hd. rewrite lookup_zip_with in Hd.
  rewrite lookup_tail in Hd.
  destruct (qs !! S i) as [b |] eqn:Hb; [| done].
  destruct (qs !! i) as [a |] eqn:Ha; [| done].
  simpl in Hd. injection Hd as <-.
  pose proof (Hdec i a b Ha Hb) as Hlt.
  apply (proj1 (Qclt_minus_iff b a)) in Hlt.
  apply (proj2 (Qclt_minus_iff (b + - a) 0)).
  replace (0 + - (b + - a))%Qc with (a + - b)%Qc by ring. exact Hlt.
Qed.

Lemma fold_left_fadd_pos (l : Series) (acc : pyfloat) :
  nonneg_fin acc -> Forall nonneg_fin l ->
  pos_fin acc \/ Exists pos_fin l ->
  pos_fin (fold_left fadd l acc).
Proof.
  revert acc. induction l as [| x l IH]; intros acc Hacc Hl Hpos.
  - destruct Hpos as [Hp | He]; [done | by apply Exists_nil in He].
  - apply Forall_cons in Hl as [Hx Hl]. simpl.
    destruct Hacc as (a & -> & Ha), Hx as (b & -> & Hb).
    apply IH; [| done |].
    + exists (a + b)%Qc. split; [done |].
      replace 0%Qc with (0 + 0)%Qc by ring. by apply Qcplus_le_compat.
    + assert (Ha0 : (0 <= this a)%Q) by exact Ha.
      assert (Hb0 : (0 <= this b)%Q) by exact Hb.
      destruct Hpos as [(a' & [= <-] & Ha') | He].
      * left. exists (a + b)%Qc. split; [done |].
        assert (Ha1 : (0 < this a)%Q) by exact Ha'.
        unfold Qclt. rewrite this_Qcplus. change (this 0%Qc) with 0%Q. lra.
      * apply Exists_cons in He as [(b' & [= <-] & Hb') | He]; [| by right].
        left. exists (a + b)%Qc. split; [done |].
        assert (Hb1 : (0 < this b)%Q) by exact Hb'.
        unfold Qclt. rewrite this_Qcplus. change (this 0%Qc) with 0%Q. lra.
Qed.

Lemma window_mean_pos (l : Series) :
  Forall nonneg_fin l -> Exists pos_fin l ->
  exists g, (fsum l / of_Z (Z.of_nat 14))%F = Fin g /\ (0 < g)%Qc.
Proof.
  intros Hl He.
  destruct (fold_left_fadd_pos l fzero) as (s & Hs & Hpos); [| done | | ].
  { exists 0%Qc. split; [done | apply Qcle_refl]. }
  { by right. }
  unfold fsum. rewrite Hs.
  eexists. split; [reflexivity |].
  unfold Qclt. rewrite this_Qcdiv.
  apply Qlt_shift_div_l; [reflexivity |].
  assert (H : (0 < this s)%Q) by exact Hpos.
  change (this 0%Qc) with 0%Q. lra.
Qed.

Lemma window_mean_zero (z : pyfloat) :
  z = fzero \/ z = fneg fzero ->
  (fsum (replicate 14 z) / of_Z (Z.of_nat 14))%F = fzero.
Proof.
  intros [-> | ->]; vm_compute; f_equal; by apply Qc_is_canon.
Qed.
End MonotoneSeries.

Section MonotoneRsi.
Implicit Types (qs ds : list Qc).

Lemma Qc_pos_not_zero (q : Qc) : (0 < q)%Qc -> Qc_is_zero q = false.
Proof.
  intros Hq. destruct (Qc_is_zero q) eqn:Hz; [| done].
  apply Qc_is_zero_spec in Hz. subst q. by apply Qclt_not_le in Hq.
Qed.

Lemma rsi_formula_no_loss (g : Qc) :
  (0 < g)%Qc ->
  (of_Z 100 - of_Z 100 / (fone + Fin g / fzero))%F = of_Z 100.
Proof.
  intros Hg. unfold fzero. cbn [fdiv].
  change (Qc_is_zero 0) with true. cbn iota.
  rewrite (Qc_pos_not_zero g Hg).
  rewrite (Qc_is_neg_nonneg g (Qclt_le_weak _ _ Hg)).
  reflexivity.
Qed.

Lemma rsi_formula_no_gain (l : Qc) :
  (0 < l)%Qc ->
  (of_Z 100 - of_Z 100 / (fone + fzero / Fin l))%F = fzero.
Proof.
  intros Hl. unfold fzero at 1. cbn [fdiv].
  rewrite (Qc_pos_not_zero l Hl). cbn [fone fadd].
  replace (1 + 0 / l)%Qc with 1%Qc
    by (field; intros ->; by apply Qclt_not_le in Hl).
  unfold fzero. change (Qc_is_zero 1) with false.
  cbn [of_Z fdiv fsub fneg fadd]. change (Qc_is_zero 1) with false.
  cbn iota. reflexivity.
Qed.

Lemma gain_keeps_positive (d : Qc) :
  (0 < d)%Qc ->
  (Fin d >? fzero)%F = true /\ (Fin d <? fzero)%F = false.
Proof.
  intros Hd. assert (Hgt : (Fin d >? fzero)%F = true).
  { unfold fgt, fzero. by apply flt_fin. }
  split; [exact Hgt |]. unfold fgt in Hgt. by apply flt_asym in Hgt.
Qed.

Lemma loss_keeps_negative (d : Qc) :
  (d < 0)%Qc ->
  (Fin d >? fzero)%F = false /\ (Fin d <? fzero)%F = true.
Proof.
  intros Hd. assert (Hlt : (Fin d <? fzero)%F = true).
  { unfold fzero. by apply flt_fin. }
  split; [| exact Hlt]. unfold fgt. by apply flt_asym in Hlt.
Qed.

Lemma where_positive ds :
  Forall (fun d => (0 < d)%Qc) ds ->
  where_ (fun d => (d >? fzero)%F) fzero (NaN :: (Fin <$> ds))
  = fzero :: (Fin <$> ds)
  /\ fneg <$> where_ (fun d => (d <? fzero)%F) fzero (NaN :: (Fin <$> ds))
     = replicate (S (length ds)) (fneg fzero).
Proof.
  intros Hds. unfold where_. rewrite !fmap_cons.
  change (NaN >? fzero)%F with false. change (NaN <? fzero)%F with false.
  cbn iota. cbn [replicate].
  induction Hds as [| d ds Hd Hds [IH1 IH2]]; [done |].
  destruct (gain_keeps_positive d Hd) as [Hg Hl].
  rewrite !fmap_cons, Hg, Hl. cbn [length replicate].
  injection IH1 as IH1. injection IH2 as IH2. by rewrite IH1, IH2.
Qed.

Lemma where_negative ds :
  Forall (fun d => (d < 0)%Qc) ds ->
  where_ (fun d => (d >? fzero)%F) fzero (NaN :: (Fin <$> ds))
  = replicate (S (length ds)) fzero
  /\ fneg <$> where_ (fun d => (d <? fzero)%F) fzero (NaN :: (Fin <$> ds))
     = fneg fzero :: (fneg <$> (Fin <$> ds)).
Proof.
  intros Hds. unfold where_. rewrite !fmap_cons.
  change (NaN >? fzero)%F with false. change (NaN <? fzero)%F with false.
  cbn iota. cbn [replicate].
  induction Hds as [| d ds Hd Hds [IH1 IH2]]; [done |].
  destruct (loss_keeps_negative d Hd) as [Hg Hl].
  rewrite !fmap_cons, Hg, Hl. cbn [length replicate].
  injection IH1 as IH1. injection IH2 as IH2. by rewrite IH1, IH2.
Qed.

(** The window of the last 14 values of a list that starts with a zero
    and goes on with at least 13 positive numbers. *)
Lemma last_window_positive (z : pyfloat) (xs : Series) (n : nat) :
  nonneg_fin z -> Forall pos_fin xs ->
  S (length xs) = n -> (14 <= n)%nat ->
  Forall nonneg_fin (take 14 (drop (n - 1 + 1 - 14) (z :: xs)))
  /\ Exists pos_fin (take 14 (drop (n - 1 + 1 - 14) (z :: xs))).
Proof.
  intros Hz Hxs Hn Hlen. split.
  - apply Forall_take, Forall_drop. constructor; [done |].
    eapply Forall_impl; [exact Hxs |].
    intros x (q & -> & Hq). exists q. split; [done | by apply Qclt_le_weak].
  - apply Exists_exists.
    destruct (lookup_lt_is_Some_2 xs (n - 2)) as [x Hx]; [lia |].
    exists x. split.
    + apply (list_elem_of_lookup_2 _ 13).
      rewrite lookup_take_lt by lia. rewrite lookup_drop.
      replace (n - 1 + 1 - 14 + 13)%nat with (S (n - 2)) by lia.
      exact Hx.
    + rewrite Forall_lookup in Hxs. exact (Hxs _ _ Hx).
Qed.
End MonotoneRsi.

(** X15.  When the closes of a history of at least 14 samples rise at
    every step, the average loss is 0 and [run] reports an RSI of
    exactly 100. *)
Theorem rsi_of_rising_prices
    (sym : string) (hist : list Row) (qs : list Qc) (now : datetime) :
  (14 <= length qs)%nat ->
  Close <$> hist = Fin <$> qs ->
  (forall i a b, qs !! i = Some a -> qs !! S i = Some b -> (a < b)%Qc) ->
  exists d,
    run sym true true (Returned hist) now = Some (data_ready d)
    /\ d_rsi d = of_Z 100.
Proof.
  intros Hlen Hclose Hinc.
  assert (Hqs : qs <> []) by (intros ->; simpl in Hlen; lia).
  assert (Hne : hist <> []).
  { intros ->. by destruct qs. }
  destruct (run_nonempty sym hist now Hne)
    as (r & last_row & m & sg & h & Hr & _ & _ & _ & _ & Hrun).
  eexists. split; [exact Hrun |]. cbn [d_rsi].
  assert (Hcne : Close <$> hist <> []) by (by destruct hist).
  pose proof (rsi_quotient_last _ _ Hcne Hr) as Hlast. cbv zeta in Hlast.
  rewrite Hclose, length_fmap in Hlast.
  replace (length qs - 1 + 1 <? 14)%nat with false in Hlast
    by (symmetry; apply Nat.ltb_ge; lia).
  rewrite (diff_fin qs Hqs) in Hlast.
  destruct (where_positive (deltas qs) (deltas_positive qs Hinc))
    as [Hgains Hlosses].
  rewrite Hgains, Hlosses, length_deltas in Hlast.
  rewrite drop_replicate, take_replicate in Hlast.
  replace (min 14 (S (length qs - 1) - (length qs - 1 + 1 - 14)))
    with 14%nat in Hlast by lia.
  rewrite (window_mean_zero (fneg fzero)) in Hlast by (by right).
  destruct (last_window_positive fzero (Fin <$> deltas qs) (length qs))
    as [Hnn Hex].
  { exists 0%Qc. split; [done | apply Qcle_refl]. }
  { apply Forall_fmap. eapply Forall_impl;
      [exact (deltas_positive qs Hinc) |].
    intros q Hq. by exists q. }
  { rewrite length_fmap, length_deltas. lia. }
  { done. }
  destruct (window_mean_pos _ Hnn Hex) as (g & Hg & Hgpos).
  rewrite Hg in Hlast. subst r. by apply rsi_formula_no_loss.
Qed.

Lemma rsi_of_rising_prices_witness :
  exists d,
    run "TCS.NS" true true (Returned demo_rising_history) 60
    = Some (data_ready d)
    /\ d_rsi d = of_Z 100.
Proof.
  apply (rsi_of_rising_prices "TCS.NS" demo_rising_history
           demo_rising_closes 60).
  - simpl. lia.
  - reflexivity.
  - intros i a b Ha Hb.
    do 14 (destruct i as [| i];
           [vm_compute in Ha, Hb;
            first [discriminate Hb
                  | injection Ha as <-; injection Hb as <-; reflexivity] |]).
    discriminate Ha.
Defined.

(** X16.  When the closes of a history of at least 14 samples fall at
    every step, the average gain is 0 and [run] reports an RSI of
    exactly 0. *)
Theorem rsi_of_falling_prices
    (sym : string) (hist : list Row) (qs : list Qc) (now : datetime) :
  (14 <= length qs)%nat ->
  Close <$> hist = Fin <$> qs ->
  (forall i a b, qs !! i = Some a -> qs !! S i = Some b -> (b < a)%Qc) ->
  exists d,
    run sym true true (Returned hist) now = Some (data_ready d)
    /\ d_rsi d = fzero.
Proof.
  intros Hlen Hclose Hdec.
  assert (Hqs : qs <> []) by (intros ->; simpl in Hlen; lia).
  assert (Hne : hist <> []).
  { intros ->. by destruct qs. }
  destruct (run_nonempty sym hist now Hne)
    as (r & last_row & m & sg & h & Hr & _ & _ & _ & _ & Hrun).
  eexists. split; [exact Hrun |]. cbn [d_rsi].
  assert (Hcne : Close <$> hist <> []) by (by destruct hist).
  pose proof (rsi_quotient_last _ _ Hcne Hr) as Hlast. cbv zeta in Hlast.
  rewrite Hclose, length_fmap in Hlast.
  replace (length qs - 1 + 1 <? 14)%nat with false in Hlast
    by (symmetry; apply Nat.ltb_ge; lia).
  rewrite (diff_fin qs Hqs) in Hlast.
  destruct (where_negative (deltas qs) (deltas_negative qs Hdec))
    as [Hgains Hlosses].
  rewrite Hgains, Hlosses, length_deltas in Hlast.
  rewrite drop_replicate, take_replicate in Hlast.
  replace (min 14 (S (length qs - 1) - (length qs - 1 + 1 - 14)))
    with 14%nat in Hlast by lia.
  rewrite (window_mean_zero fzero) in Hlast by (by left).
  destruct (last_window_positive (fneg fzero)
              (fneg <$> (Fin <$> deltas qs)) (length qs))
    as [Hnn Hex].
  { exists (- 0)%Qc. split; [done | apply Qcle_refl]. }
  { rewrite <- list_fmap_compose. apply Forall_fmap. eapply Forall_impl;
      [exact (deltas_negative qs Hdec) |].
    intros q Hq. exists (- q)%Qc. split; [done |].
    apply (proj2 (Qclt_minus_iff 0 (- q))).
    replace (- q + - 0)%Qc with (0 + - q)%Qc by ring.
    by apply (proj1 (Qclt_minus_iff q 0)). }
  { rewrite !length_fmap, length_deltas. lia. }
  { done. }
  destruct (window_mean_pos _ Hnn Hex) as (l & Hl & Hlpos).
  rewrite Hl in Hlast. subst r. by apply rsi_formula_no_gain.
Qed.

Lemma rsi_of_falling_prices_witness :
  exists d,
    run "TCS.NS" true true (Returned demo_falling_history) 60
    = Some (data_ready d)
    /\ d_rsi d = fzero.
Proof.
  apply (rsi_of_falling_prices "TCS.NS" demo_falling_history
           demo_falling_closes 60).
  - simpl. lia.
  - reflexivity.
  - intros i a b Ha Hb.
    do 14 (destruct i as [| i];
           [vm_compute in Ha, Hb;
            first [discriminate Hb
                  | injection Ha as <-; injection Hb as <-; reflexivity] |]).
    discriminate Ha.
Defined.

(** ** Rounding in [StockDataFetcher.run] *)

Section Rounding.

Lemma py_round_idempotent (x : pyfloat) (n : nat) :
  py_round (py_round x n) n = py_round x n.
Proof.
  destruct x as [q | s |]; try reflexivity.
  cbn [py_round]. f_equal.
  set (k := round_half_even (q * pow10 n)).
  assert (Hk : Q2Qc (inject_Z k / pow10 n) * pow10 n == inject_Z k).
  { unfold Q2Qc; cbn [this]. rewrite Qred_correct.
    field. apply pow10_nonzero. }
  by rewrite (round_half_even_integer _ _ Hk).
Qed.
End Rounding.

(** X18.  What [StockDataFetcher.run] reports is already rounded: a
    second rounding of price or rsi to 2 digits, or of macd, signal or
    histogram to 4 digits, changes nothing, and the dictionary carries
    the symbol of the worker.  An empty history and an exception both
    end in [error_occurred] for that symbol, the message prefixed with
    "Error processing <symbol>: ". *)
Theorem StockDataFetcher_run_reports_rounded
    (ta_rsi : Z -> Series -> Series)
    (ta_macd ta_macd_signal : Z -> Z -> Z -> Series -> Series)
    (sym : string) (now : datetime) :
  (forall history d,
      StockDataFetcher_run ta_rsi ta_macd ta_macd_signal sym history now
      = data_ready d ->
      d_symbol d = sym
      /\ py_round (d_price d) 2 = d_price d
      /\ py_round (d_rsi d) 2 = d_rsi d
      /\ py_round (d_macd d) 4 = d_macd d
      /\ py_round (d_macd_signal d) 4 = d_macd_signal d
      /\ py_round (d_macd_hist d) 4 = d_macd_hist d)
  /\ StockDataFetcher_run ta_rsi ta_macd ta_macd_signal sym (Returned []) now
     = error_occurred sym
         (String.append "Error processing "
            (String.append sym
               (String.append ": " (String.append "No data found for " sym))))
  /\ (forall msg,
         StockDataFetcher_run ta_rsi ta_macd ta_macd_signal sym (Raised msg)
           now
         = error_occurred sym
             (String.append "Error processing "
                (String.append sym (String.append ": " msg)))).
Proof.
  split; [| split; reflexivity].
  intros history d. unfold StockDataFetcher_run.
  destruct history as [msg | [| r0 rest]]; [done | done |].
  destruct (iloc_last (ta_rsi _ _)); [| done].
  destruct (iloc_last (ta_macd _ _ _ _)); [| done].
  destruct (iloc_last (ta_macd_signal _ _ _ _)); [| done].
  destruct (iloc_last (Close <$> _)); [| done].
  destruct (iloc_last (Volume <$> _)); [| done].
  intros [= <-]. cbn [d_symbol d_price d_rsi d_macd d_macd_signal d_macd_hist].
  repeat split; apply py_round_idempotent.
Qed.

Lemma StockDataFetcher_run_reports_rounded_witness :
  exists d,
    StockDataFetcher_run (fun _ s => s) (fun _ _ _ s => macd_series s)
      (fun _ _ _ s => signal_series s) "TCS.NS"
      (Returned demo_short_history) 60
    = data_ready d
    /\ d_symbol d = "TCS.NS"
    /\ py_round (d_macd d) 4 = d_macd d.
Proof.
  eexists. split; [reflexivity |].
  pose proof (proj1 (StockDataFetcher_run_reports_rounded
                       (fun _ s => s) (fun _ _ _ s => macd_series s)
                       (fun _ _ _ s => signal_series s) "TCS.NS" 60)
                (Returned demo_short_history) _ eq_refl) as H.
  split; [exact (proj1 H) | exact (proj1 (proj2 (proj2 (proj2 H))))].
Defined.

(** ** What the fetchers emit *)

Section Emission.
Implicit Types (sym : string) (history : outcome (list FloatRow)).

Lemma StockFetcher_run_data_inv sym running0 running1 history now d :
  StockFetcher_run sym running0 running1 history now = Some (data_ready d) ->
  running0 = true /\ running1 = true
  /\ d_symbol d = sym /\ d_timestamp d = now
  /\ exists hist last_row,
       history = Returned hist /\ iloc_last hist = Some last_row
       /\ d_price d = fClose last_row
       /\ py_int (fVolume last_row) = Returned (d_volume d).
Proof.
  unfold StockFetcher_run. destruct running0; [| done]. cbn [negb].
  destruct history as [msg | [| r0 rest]];
    [by destruct running1 | done |].
  destruct (iloc_last (rsi_quotient_series _)); [| by destruct running1].
  destruct (iloc_last (r0 :: rest)) as [last_row |] eqn:Hrow;
    [| by destruct running1].
  destruct (iloc_last (macd_series _)); [| by destruct running1].
  destruct (iloc_last (signal_series _)); [| by destruct running1].
  destruct (iloc_last (macd_hist_series _)); [| by destruct running1].
  destruct (py_int (fVolume last_row)) as [msg | v] eqn:Hv;
    [by destruct running1 |].
  destruct running1; [| done]. intros [= <-].
  cbn [d_symbol d_timestamp d_price d_volume].
  do 4 (split; [reflexivity |]).
  exists (r0 :: rest), last_row. by rewrite Hv.
Qed.

Lemma StockFetcher_run_error_inv sym running0 running1 history now s msg :
  StockFetcher_run sym running0 running1 history now
  = Some (error_occurred s msg) ->
  s = sym.
Proof.
  unfold StockFetcher_run. destruct running0; [| done]. cbn [negb].
  destruct history as [m | [| r0 rest]].
  - destruct running1; [by intros [= <- _] | done].
  - by intros [= <- _].
  - destruct (iloc_last (rsi_quotient_series _));
      [| destruct running1; [by intros [= <- _] | done]].
    destruct (iloc_last (r0 :: rest)) as [last_row |];
      [| destruct running1; [by intros [= <- _] | done]].
    destruct (iloc_last (macd_series _));
      [| destruct running1; [by intros [= <- _] | done]].
    destruct (iloc_last (signal_series _));
      [| destruct running1; [by intros [= <- _] | done]].
    destruct (iloc_last (macd_hist_series _));
      [| destruct running1; [by intros [= <- _] | done]].
    destruct (py_int (fVolume last_row));
      destruct running1; try done. by intros [= <- _].
Qed.

Lemma StockFetcher_run_none_iff sym running0 running1 history now :
  StockFetcher_run sym running0 running1 history now = None
  <-> running0 = false \/ (running1 = false /\ history <> Returned []).
Proof.
  destruct running0; [| split; [by left | done]].
  destruct history as [msg | [| r0 rest]].
  - destruct running1; split; try done.
    + intros [H | [H _]]; discriminate H.
    + intros _. by right.
  - split; [done |]. intros [H | [_ H]]; [discriminate H | done].
  - destruct (iloc_last_nonempty (r0 :: rest)) as [last_row Hrow]; [done |].
    destruct (StockFetcher_run_nonempty sym (r0 :: rest) last_row now Hrow)
      as (r & m & sg & h & _ & _ & _ & _ & Hrun).
    rewrite Hrun.
    destruct (py_int (fVolume last_row)), running1; split; try done;
      try (intros [H | [H _]]; discriminate H);
      intros _; by right.
Qed.

Lemma run_volume_inv sym running0 running1 (rows : list Row) now d :
  run sym running0 running1 (Returned rows) now = Some (data_ready d) ->
  exists last_row,
    iloc_last rows = Some last_row
    /\ d_price d = Close last_row
    /\ d_volume d = float64_of_int (Volume last_row).
Proof.
  rewrite run_eq. destruct running0; [| done]. cbn [negb].
  destruct rows as [| r0 rest]; [done |].
  destruct (iloc_last (rsi_quotient_series _)); [| by destruct running1].
  destruct (iloc_last (r0 :: rest)) as [last_row |] eqn:Hrow;
    [| by destruct running1].
  destruct (iloc_last (macd_series _)); [| by destruct running1].
  destruct (iloc_last (signal_series _)); [| by destruct running1].
  destruct (iloc_last (macd_hist_series _)); [| by destruct running1].
  destruct running1; [| done]. intros [= <-]. by exists last_row.
Qed.
End Emission.

(** X19.  A worker emits nothing exactly when it was stopped before it
    started, or was stopped while running on a history that is not
    empty: the "No data returned" error of an empty history is emitted
    even by a worker stopped meanwhile.  A dictionary is emitted only by
    a worker still running at the end; it carries the worker's symbol,
    the clock, the close of the last row and [int] of its volume.  An
    error is always for the worker's own symbol.  On a frame with an
    int64 volume column the volume reported is the integer value of the
    double nearest to the last volume: the volume itself up to 2^53 in
    magnitude, and 2^53 for the volume 2^53 + 1. *)
Theorem run_emits_for_its_own_symbol
    (sym : string) (running0 running1 : bool)
    (history : outcome (list FloatRow)) (now : datetime) :
  (StockFetcher_run sym running0 running1 history now = None
   <-> running0 = false \/ (running1 = false /\ history <> Returned []))
  /\ (forall d,
         StockFetcher_run sym running0 running1 history now
         = Some (data_ready d) ->
         running0 = true /\ running1 = true
         /\ d_symbol d = sym /\ d_timestamp d = now
         /\ exists hist last_row,
              history = Returned hist /\ iloc_last hist = Some last_row
              /\ d_price d = fClose last_row
              /\ py_int (fVolume last_row) = Returned (d_volume d))
  /\ (forall s msg,
         StockFetcher_run sym running0 running1 history now
         = Some (error_occurred s msg) -> s = sym)
  /\ StockFetcher_run sym true running1 (Returned []) now
     = Some (error_occurred sym "No data returned")
  /\ (forall (rows : list Row) d,
         run sym running0 running1 (Returned rows) now
         = Some (data_ready d) ->
         exists last_row,
           iloc_last rows = Some last_row
           /\ d_price d = Close last_row
           /\ d_volume d = float64_of_int (Volume last_row)
           /\ (Z.abs (Volume last_row) <= 2 ^ 53 ->
               d_volume d = Volume last_row))
  /\ (forall c, exists d,
         run sym true true (Returned [mkRow c (2 ^ 53 + 1)]) now
         = Some (data_ready d)
         /\ d_volume d = 2 ^ 53).
Proof.
  split; [apply StockFetcher_run_none_iff |].
  split; [intros d; apply StockFetcher_run_data_inv |].
  split; [intros s msg; apply StockFetcher_run_error_inv |].
  split; [reflexivity |].
  split.
  - intros rows d Hd.
    destruct (run_volume_inv _ _ _ _ _ _ Hd) as (last_row & Hrow & Hp & Hv).
    exists last_row. repeat (split; [assumption |]).
    intros Hsmall. by rewrite Hv, float64_of_int_small.
  - intros c.
    destruct (run_nonempty sym [mkRow c (2 ^ 53 + 1)] now)
      as (r & last_row & m & sg & h & _ & Hrow & _ & _ & _ & Hrun); [done |].
    injection Hrow as <-.
    eexists. split; [exact Hrun |]. by vm_compute.
Qed.

Lemma run_emits_for_its_own_symbol_witness :
  StockFetcher_run "TCS.NS" true false
    (float_rows (Returned demo_short_history)) 60 = None.
Proof.
  apply (proj1 (run_emits_for_its_own_symbol "TCS.NS" true false
                  (float_rows (Returned demo_short_history)) 60)).
  right. split; [reflexivity | discriminate].
Defined.

(** X20.  One pass end to end.  When the history fetched for a symbol is
    not empty (and the indicator package returns Series as long as its
    input) and [background_update] has processed that fetch as the last
    one for the symbol, the volume of the last row decides.  If [int]
    converts it, the entry exists, shows the close of the last row, the
    converted volume and the clock of the fetch, carries no error, and
    its histogram is macd minus signal.  If [int] raises (the volume is
    missing), the entry is the one from before with the message as its
    error, and there is none if there was none.  With an int64 volume
    column the entry always exists and shows the integer value of the
    double nearest to the last volume, the volume itself up to 2^53 in
    magnitude. *)
Theorem background_update_shows_latest_row
    (ta_rsi : Z -> Series -> Series)
    (ta_macd ta_macd_signal : Z -> Z -> Z -> Series -> Series)
    (fetches : list Fetch) (f : Fetch) (hist : list FloatRow)
    (last_row : FloatRow) (store : gmap string StockData) :
  (forall w s, length (ta_rsi w s) = length s) ->
  (forall a b c s, length (ta_macd a b c s) = length s) ->
  (forall a b c s, length (ta_macd_signal a b c s) = length s) ->
  f_history f = Returned hist ->
  iloc_last hist = Some last_row ->
  (forall v,
      py_int (fVolume last_row) = Returned v ->
      exists st,
        background_update ta_rsi ta_macd ta_macd_signal (fetches ++ [f]) store
          !! f_symbol f = Some st
        /\ price st = fClose last_row
        /\ volume st = v
        /\ timestamp st = f_now f
        /\ error st = None
        /\ macd_hist st = (macd st - macd_signal st)%F)
  /\ (forall msg,
         py_int (fVolume last_row) = Raised msg ->
         background_update ta_rsi ta_macd ta_macd_signal (fetches ++ [f]) store
           !! f_symbol f
         = (fun st => set_error st (Some msg))
             <$> (background_update ta_rsi ta_macd ta_macd_signal fetches
                    store !! f_symbol f))
  /\ (forall row : Row,
         last_row = float_row row ->
         exists st,
           background_update ta_rsi ta_macd ta_macd_signal (fetches ++ [f])
             store !! f_symbol f = Some st
           /\ price st = Close row
           /\ volume st = float64_of_int (Volume row)
           /\ (Z.abs (Volume row) <= 2 ^ 53 -> volume st = Volume row)).
Proof.
  intros Hr Hm Hs Hhist Hlast.
  destruct (fetch_stock_data_nonempty ta_rsi ta_macd ta_macd_signal
              (f_symbol f) hist last_row (f_now f) Hr Hm Hs Hlast)
    as (r & m & sg & _ & _ & _ & Hf).
  assert (Hstep :
    background_update ta_rsi ta_macd ta_macd_signal (fetches ++ [f]) store
    = merge (f_created f) (f_symbol f)
        (match py_int (fVolume last_row) with
         | Returned v =>
             DataDict
               {| d_symbol := f_symbol f; d_price := fClose last_row;
                  d_rsi := r; d_macd := m; d_macd_signal := sg;
                  d_macd_hist := (m - sg)%F;
                  d_volume := v; d_timestamp := f_now f |}
         | Raised msg => ErrorDict (f_symbol f) msg
         end)
        (background_update ta_rsi ta_macd ta_macd_signal fetches store)).
  { unfold background_update. rewrite fmap_app, fmap_cons, merge_all_snoc.
    unfold merge_arrival, arrival_of at 2 3 4;
      cbn [arr_now arr_symbol arr_result].
    by rewrite Hhist, Hf. }
  assert (Hdata : forall v,
    py_int (fVolume last_row) = Returned v ->
    exists st,
      background_update ta_rsi ta_macd ta_macd_signal (fetches ++ [f]) store
        !! f_symbol f = Some st
      /\ price st = fClose last_row
      /\ volume st = v
      /\ timestamp st = f_now f
      /\ error st = None
      /\ macd_hist st = (macd st - macd_signal st)%F).
  { intros v Hv. rewrite Hstep, Hv. unfold merge.
    rewrite lookup_insert_eq. eexists. split; [reflexivity |]. by simpl. }
  split; [exact Hdata |].
  split.
  - intros msg Hmsg. rewrite Hstep, Hmsg. unfold merge.
    destruct (background_update _ _ _ fetches store !! f_symbol f)
      as [st |] eqn:Hst.
    + by rewrite lookup_insert_eq.
    + by rewrite Hst.
  - intros row ->.
    destruct (Hdata (float64_of_int (Volume row)))
      as (st & Hst & Hp & Hv & _); [apply py_int_of_Z |].
    exists st. repeat (split; [assumption |]).
    intros Hsmall. by rewrite Hv, float64_of_int_small.
Qed.

Lemma background_update_shows_latest_row_witness :
  (exists st,
      background_update (fun _ s => s) (fun _ _ _ s => macd_series s)
        (fun _ _ _ s => signal_series s)
        ([mkFetch "TCS.NS" (Raised "timed out") 50 51]
         ++ [mkFetch "TCS.NS" (float_rows (Returned demo_short_history))
               60 61]) ∅
        !! "TCS.NS" = Some st
      /\ price st = dec 103 1
      /\ volume st = 7
      /\ timestamp st = 60
      /\ error st = None
      /\ macd_hist st = (macd st - macd_signal st)%F)
  /\ background_update (fun _ s => s) (fun _ _ _ s => macd_series s)
       (fun _ _ _ s => signal_series s)
       ([] ++ [mkFetch "TCS.NS"
                 (Returned [mkFloatRow (dec 103 1) NaN]) 60 61])
       (demo_store (dec 13 10) (dec 11 10))
       !! "TCS.NS"
     = (fun st =>
          set_error st (Some "cannot convert float NaN to integer"))
         <$> (demo_store (dec 13 10) (dec 11 10) !! "TCS.NS").
Proof.
  split.
  - apply (proj1 (background_update_shows_latest_row
             (fun _ s => s) (fun _ _ _ s => macd_series s)
             (fun _ _ _ s => signal_series s)
             [mkFetch "TCS.NS" (Raised "timed out") 50 51]
             (mkFetch "TCS.NS" (float_rows (Returned demo_short_history))
                60 61)
             (float_row <$> demo_short_history)
             (float_row (mkRow (dec 103 1) 7)) ∅
             (fun _ _ => eq_refl)
             (fun _ _ _ s => length_macd_series s)
             (fun _ _ _ s => length_signal_series s)
             eq_refl eq_refl)).
    reflexivity.
  - apply (proj1 (proj2 (background_update_shows_latest_row
             (fun _ s => s) (fun _ _ _ s => macd_series s)
             (fun _ _ _ s => signal_series s)
             []
             (mkFetch "TCS.NS" (Returned [mkFloatRow (dec 103 1) NaN])
                60 61)
             [mkFloatRow (dec 103 1) NaN]
             (mkFloatRow (dec 103 1) NaN)
             (demo_store (dec 13 10) (dec 11 10))
             (fun _ _ => eq_refl)
             (fun _ _ _ s => length_macd_series s)
             (fun _ _ _ s => length_signal_series s)
             eq_refl eq_refl))).
    reflexivity.
Defined.

(** ** The label across passes *)

(** X21.  After a successful merge the label compares the new macd and
    signal with those of the previous successful result for the symbol:
    failed cycles in between, and results for other symbols, are
    skipped. *)
Theorem crossover_compares_with_previous_success
    (now : datetime) (sym : string) (d dl : StockDict)
    (arrivals : list Arrival) (store : gmap string StockData) :
  last_success sym arrivals None = Some dl ->
  exists st,
    merge now sym (DataDict d) (merge_all arrivals store) !! sym = Some st
    /\ macd_crossover st
       = classify (d_macd dl) (d_macd_signal dl) (d_macd d) (d_macd_signal d).
Proof.
  intros Hl.
  destruct (merge_all_tracks_last_success sym arrivals store dl Hl)
    as (st0 & Hst0 & Hm & Hs).
  rewrite (merge_lookup_existing _ _ _ _ _ Hst0).
  eexists. split; [reflexivity |].
  unfold macd_crossover. simpl. by rewrite Hm, Hs.
Qed.

Lemma crossover_compares_with_previous_success_witness :
  exists st,
    merge 70 "TCS.NS"
      (DataDict (demo_dict (dec 3500 1) (dec 13 10) (dec 11 10)))
      (merge_all
         [mkArrival "TCS.NS"
            (DataDict (demo_dict (dec 3400 1) (dec 10 10) (dec 12 10))) 50;
          mkArrival "TCS.NS" (ErrorDict "TCS.NS" "timed out") 55]
         ∅) !! "TCS.NS" = Some st
    /\ macd_crossover st
       = classify (dec 10 10) (dec 12 10) (dec 13 10) (dec 11 10).
Proof.
  apply (crossover_compares_with_previous_success 70 "TCS.NS"
           (demo_dict (dec 3500 1) (dec 13 10) (dec 11 10))
           (demo_dict (dec 3400 1) (dec 10 10) (dec 12 10))
           [mkArrival "TCS.NS"
              (DataDict (demo_dict (dec 3400 1) (dec 10 10) (dec 12 10))) 50;
            mkArrival "TCS.NS" (ErrorDict "TCS.NS" "timed out") 55]
           ∅).
  reflexivity.
Defined.

(** ** More on [ensure_nse_symbol] *)

Section SuffixFacts.
Implicit Types (s t p : string).

Lemma substring_split s (k : nat) :
  (k <= String.length s)%nat ->
  s = String.append (String.substring 0 k s)
        (String.substring k (String.length s - k) s).
Proof.
  revert k. induction s as [| c s IH]; intros [| k] Hk; simpl in *.
  - reflexivity.
  - lia.
  - by rewrite substring_all.
  - change (String c s
            = String c (String.append (String.substring 0 k s)
                          (String.substring k (String.length s - k) s))).
    f_equal. apply IH. lia.
Qed.

Lemma endswith_iff s t :
  endswith s t = true <-> exists p, s = String.append p t.
Proof.
  split.
  - unfold endswith.
    destruct (String.length t <=? String.length s)%nat eqn:Hle; [| done].
    apply Nat.leb_le in Hle. intros Heq. apply String.eqb_eq in Heq.
    exists (String.substring 0 (String.length s - String.length t) s).
    pose proof (substring_split s (String.length s - String.length t))
      as Hsplit.
    replace (String.length s - (String.length s - String.length t))%nat
      with (String.length t) in Hsplit by lia.
    rewrite Heq in Hsplit. apply Hsplit. lia.
  - intros [p ->]. apply endswith_append.
Qed.

Lemma append_inv_tail s1 s2 t :
  String.append s1 t = String.append s2 t -> s1 = s2.
Proof.
  revert s2. induction s1 as [| c s1 IH]; intros [| c2 s2] H.
  - reflexivity.
  - apply (f_equal String.length) in H.
    change (String.append "" t) with t in H.
    change (String.append (String c2 s2) t)
      with (String c2 (String.append s2 t)) in H.
    cbn [String.length] in H. rewrite length_append in H. lia.
  - apply (f_equal String.length) in H.
    change (String.append "" t) with t in H.
    change (String.append (String c s1) t)
      with (String c (String.append s1 t)) in H.
    cbn [String.length] in H. rewrite length_append in H. lia.
  - change (String c (String.append s1 t) = String c2 (String.append s2 t))
      in H.
    injection H as -> H. f_equal. by apply IH.
Qed.
End SuffixFacts.

(** X22.  [ensure_nse_symbol] leaves a string alone exactly when it is
    some prefix followed by ".NS" (upper case, as [endswith] compares
    characters), and appends ".NS" otherwise.  Two different symbols
    get the same normal form only when one is the other followed by
    ".NS": these are the only symbols that share a store entry. *)
Theorem ensure_nse_symbol_collisions :
  (forall s,
      ensure_nse_symbol s = s <-> exists p, s = String.append p ".NS")
  /\ (forall s,
         (forall p, s <> String.append p ".NS") ->
         ensure_nse_symbol s = String.append s ".NS")
  /\ (forall a b,
         ensure_nse_symbol a = ensure_nse_symbol b ->
         a = b \/ a = String.append b ".NS" \/ b = String.append a ".NS").
Proof.
  assert (Hnot : forall s, endswith s ".NS" = false ->
                           ensure_nse_symbol s = String.append s ".NS").
  { intros s Hs. unfold ensure_nse_symbol. by rewrite Hs. }
  split; [| split].
  - intros s. rewrite <- endswith_iff. split.
    + intros Hfix. rewrite <- Hfix. apply ensure_nse_symbol_suffix.
    + apply ensure_nse_symbol_fixed.
  - intros s Hs. apply Hnot.
    destruct (endswith s ".NS") eqn:He; [| done].
    apply endswith_iff in He as [p ->]. by destruct (Hs p).
  - intros a b Heq.
    destruct (endswith a ".NS") eqn:Ha, (endswith b ".NS") eqn:Hb.
    + left. by rewrite <- (ensure_nse_symbol_fixed a Ha),
                       <- (ensure_nse_symbol_fixed b Hb).
    + right; left.
      by rewrite <- (ensure_nse_symbol_fixed a Ha), Heq, (Hnot b Hb).
    + right; right.
      by rewrite <- (ensure_nse_symbol_fixed b Hb), <- Heq, (Hnot a Ha).
    + left. rewrite (Hnot a Ha), (Hnot b Hb) in Heq.
      by apply append_inv_tail in Heq.
Qed.

Lemma ensure_nse_symbol_collisions_witness :
  ensure_nse_symbol "tcs.ns" = "tcs.ns.NS".
Proof.
  apply (proj1 (proj2 ensure_nse_symbol_collisions) "tcs.ns").
  intros p Hp.
  assert (H : endswith "tcs.ns" ".NS" = true)
    by (apply endswith_iff; by exists p).
  discriminate H.
Defined.
